(** * exact_outline_post.py: object outlines for Klipper's EXCLUDE_OBJECT

    A shallow embedding of [src/exact_outline_post.py] and the properties
    of its stream scanner, hull builder, simplifier and command emitter.

    Conventions of the embedding.
    - A Python [str] is a [string]; a character is a code point below 256.
    - A Python [float] is a primitive binary64 [float]; [+], [/] and [<] are
      the IEEE operations, as in CPython.
    - The builtins [float()], [int()], [round()], [sum()] and the
      formatting of a float, and the packages shapely and alphashape, are
      not code of this program: they are the fields of the interfaces
      [Builtins] and [Shapely] below.
    - The dict [objects] keeps insertion order, so it is an association
      list; [name_counts] is only looked up by key, so it is a [gmap]. *)

From Stdlib Require FloatOps Uint63 DecimalNat.
From Stdlib Require Import PrimFloat.
From Stdlib Require Import String Ascii ZArith List Bool Lia DecimalString.
From stdpp Require Import base option list strings gmap.

Set Warnings "-inexact-float".
Local Open Scope string_scope.
Local Open Scope list_scope.
Local Open Scope Z_scope.

(** ** Python string methods *)

Module PyStr.

(** [str.isspace] on one character (code points below 256). *)
Definition is_space (c : ascii) : bool :=
  let n := nat_of_ascii c in
  ((9 <=? n) && (n <=? 13) || (28 <=? n) && (n <=? 32)
   || (n =? 133) || (n =? 160))%nat.

Definition is_empty (s : string) : bool :=
  match s with EmptyString => true | String _ _ => false end.

Fixpoint lstrip (s : string) : string :=
  match s with
  | EmptyString => EmptyString
  | String c s' => if is_space c then lstrip s' else s
  end.

Fixpoint rstrip (s : string) : string :=
  match s with
  | EmptyString => EmptyString
  | String c s' =>
      match rstrip s' with
      | EmptyString => if is_space c then EmptyString else String c EmptyString
      | r => String c r
      end
  end.

(** [s.strip()] *)
Definition strip (s : string) : string := rstrip (lstrip s).

(** [s.startswith(p)] *)
Definition startswith (s p : string) : bool := String.prefix p s.

Fixpoint find_from (s sub : string) (i : Z) : Z :=
  if String.prefix sub s then i
  else match s with
       | EmptyString => -1
       | String _ s' => find_from s' sub (i + 1)
       end.

(** [s.find(sub)]: the lowest index of [sub] in [s], or -1. *)
Definition find (s sub : string) : Z := find_from s sub 0.

(** [sub in s] *)
Definition contains (s sub : string) : bool := 0 <=? find s sub.

Definition snoc (s : string) (c : ascii) : string :=
  (s ++ String c EmptyString)%string.

Fixpoint split_go (s cur : string) : list string :=
  match s with
  | EmptyString => if is_empty cur then [] else [cur]
  | String c s' =>
      if is_space c
      then (if is_empty cur then split_go s' EmptyString
            else cur :: split_go s' EmptyString)
      else split_go s' (snoc cur c)
  end.

(** [s.split()]: the maximal runs of non-whitespace characters. *)
Definition split (s : string) : list string := split_go s EmptyString.

Fixpoint split_on_go (s sep : string) (skip : nat) (cur : string) : list string :=
  match s with
  | EmptyString => [cur]
  | String c s' =>
      match skip with
      | S k => split_on_go s' sep k cur
      | O =>
          if String.prefix sep s
          then cur :: split_on_go s' sep (String.length sep - 1) EmptyString
          else split_on_go s' sep 0 (snoc cur c)
      end
  end.

(** [s.split(sep)] for a non-empty [sep]: cut at the occurrences of [sep],
    found from the left and not overlapping. *)
Definition split_on (s sep : string) : list string :=
  split_on_go s sep 0 EmptyString.

Definition lower_char (c : ascii) : ascii :=
  let n := nat_of_ascii c in
  if ((65 <=? n) && (n <=? 90)
      || (192 <=? n) && (n <=? 222) && negb (n =? 215))%nat
  then ascii_of_nat (n + 32) else c.

(** [s.lower()] *)
Fixpoint lower (s : string) : string :=
  match s with
  | EmptyString => EmptyString
  | String c s' => String (lower_char c) (lower s')
  end.

(** [s[a:b]] for indices that are not negative. *)
Definition slice (s : string) (a b : Z) : string :=
  String.substring (Z.to_nat a) (Z.to_nat b - Z.to_nat a) s.

(** [s[1:]] *)
Definition tail (s : string) : string :=
  match s with EmptyString => EmptyString | String _ r => r end.

(** [str(n)] for a natural number. *)
Definition of_nat (n : nat) : string := NilEmpty.string_of_uint (Nat.to_uint n).

End PyStr.


(** ** Floats, points and geometries *)

Definition point : Type := float * float.

(** [==] on a pair of floats, the equality a [set] of tuples uses. *)
Definition point_eqb (p q : point) : bool :=
  (p.1 =? q.1)%float && (p.2 =? q.2)%float.

(** The float an [int] operand is converted to ([n] below 2^63). *)
Definition float_of_nat (n : nat) : float :=
  PrimFloat.of_uint63 (Uint63.of_Z (Z.of_nat n)).

(** [sum] of floats as CPython computes it up to version 3.11: from the
    integer 0, one IEEE addition per element, from the left. *)
Definition float_sum (l : list float) : float :=
  fold_left PrimFloat.add l 0%float.

Definition is_finite (x : float) : bool :=
  match FloatOps.Prim2SF x with
  | SpecFloat.S754_zero _ | SpecFloat.S754_finite _ _ _ => true
  | _ => false
  end.

(** One element of the compensated loop: the running sum and the running
    compensation. *)
Definition compensated_step (acc : float * float) (x : float) : float * float :=
  let '(f, c) := acc in
  let t := (f + x)%float in
  let c := if (PrimFloat.abs x <=? PrimFloat.abs f)%float
           then (c + ((f - t) + x))%float
           else (c + ((x - t) + f))%float in
  (t, c).

(** [sum] of floats as CPython computes it from version 3.12 on: the first
    element is added to the integer 0, the others go through Neumaier's
    compensated loop, and the compensation is added at the end when it is
    finite and not zero. *)
Definition compensated_sum (l : list float) : float :=
  match l with
  | [] => 0%float
  | x :: rest =>
      let '(f, c) := fold_left compensated_step rest ((0 + x)%float, 0%float) in
      if negb (c =? 0)%float && is_finite c then (f + c)%float else f
  end.

(** The exact value of a finite float, in units of 2^-1074 (0 for an
    infinity or a NaN). *)
Definition exact (x : float) : Z :=
  match FloatOps.Prim2SF x with
  | SpecFloat.S754_finite s m e =>
      let v := Z.pos m * 2 ^ (e + 1074) in if s then - v else v
  | _ => 0
  end.

(** Three points lie on one line: their cross product, computed exactly, is
    zero. *)
Definition collinear (a b c : point) : bool :=
  (exact b.1 - exact a.1) * (exact c.2 - exact a.2)
  =? (exact b.2 - exact a.2) * (exact c.1 - exact a.1).

(** What a shapely geometry is to this program: a [Polygon], a
    [MultiPolygon] with its member polygons, or any other geometry (a point,
    a line string, a collection), of which only emptiness is observed. *)
Inductive geom (polygon : Type) : Type :=
| GPolygon (p : polygon)
| GMultiPolygon (geoms : list polygon)
| GOther (empty : bool).
Arguments GPolygon {polygon} p.
Arguments GMultiPolygon {polygon} geoms.
Arguments GOther {polygon} empty.

Definition finite_point (p : point) : bool := is_finite p.1 && is_finite p.2.

(** [p] lies below [q], or level with it and to its left. *)
Definition lower_point (p q : point) : bool :=
  (exact p.2 <? exact q.2)
  || ((exact p.2 =? exact q.2) && (exact p.1 <? exact q.1)).

(** The cross product of [p - o] and [q - o], computed exactly: negative
    when the turn from [o] through [p] to [q] is clockwise. *)
Definition cross (o p q : point) : Z :=
  (exact p.1 - exact o.1) * (exact q.2 - exact o.2)
  - (exact p.2 - exact o.2) * (exact q.1 - exact o.1).

(** The closed ring from [o] through the two other points, clockwise. *)
Definition clockwise_ring (o p q : point) : list point :=
  if cross o p q <? 0 then [o; p; q; o] else [o; q; p; o].

(** Modelled from the spec: [MultiPoint(points).convex_hull] belongs to
    shapely and is not under src/. The convex hull of three points is the
    triangle they form, and no polygon (a segment) when they lie on one line
    (spec 4.3 and 8). The ring is written the way shapely writes it: from
    the lowest point, the leftmost of the lowest, clockwise, and closed. A
    polygon without holes is its exterior ring. *)
Definition triangle_hull (a b c : point) : geom (list point) :=
  if collinear a b c then GOther false
  else if lower_point a b && lower_point a c then GPolygon (clockwise_ring a b c)
  else if lower_point b c then GPolygon (clockwise_ring b a c)
  else GPolygon (clockwise_ring c a b).

(** The builtins the program calls. [None] stands for a raised exception. *)
Class Builtins := {
  py_float : string -> option float;      (* float(s) *)
  py_int : string -> option Z;            (* int(s) *)
  py_round : float -> Z -> float;         (* round(x, ndigits) *)
  py_sum : list float -> float;           (* sum(...) of floats *)
  float_str : float -> string;            (* a float inside an f-string *)
}.

(** The geometry packages: shapely's polygons and [MultiPoint.convex_hull],
    and [alphashape.alphashape] ([None]: the import or the call raised). *)
Class Shapely := {
  polygon : Type;
  exterior_coords : polygon -> list point;       (* list(p.exterior.coords) *)
  area : polygon -> float;                       (* p.area *)
  simplify : polygon -> float -> polygon;        (* p.simplify(tol, preserve_topology=True) *)
  convex_hull : list point -> geom polygon;      (* MultiPoint(points).convex_hull *)
  alphashape : list point -> float -> option (geom polygon);
}.

(** Shapely over polygons without holes, with the convex hull of three
    points as modelled in [triangle_hull]; the area, the simplification, the
    convex hull of any other number of points and alphashape are left
    open. *)
Definition ring_shapely (area : list point -> float)
    (simplify : list point -> float -> list point)
    (hull_of_others : list point -> geom (list point))
    (alphashape : list point -> float -> option (geom (list point))) : Shapely :=
  {| polygon := list point;
     exterior_coords := fun p => p;
     area := area;
     simplify := simplify;
     convex_hull := fun points =>
                      match points with
                      | [a; b; c] => triangle_hull a b c
                      | _ => hull_of_others points
                      end;
     alphashape := alphashape |}.

Section Program.
Context `{!Builtins, !Shapely}.

(** [p.is_empty] of a polygon: it has no coordinates. *)
Definition polygon_is_empty (p : polygon) : bool :=
  match exterior_coords p with [] => true | _ :: _ => false end.

(** [g.is_empty] *)
Definition is_empty (g : geom polygon) : bool :=
  match g with
  | GPolygon p => polygon_is_empty p
  | GMultiPolygon geoms => forallb polygon_is_empty geoms
  | GOther empty => empty
  end.

(** ** concave_hull *)

Fixpoint max_area_go (best : polygon) (rest : list polygon) : polygon :=
  match rest with
  | [] => best
  | p :: rest' =>
      if (area best <? area p)%float then max_area_go p rest'
      else max_area_go best rest'
  end.

(** [max(geoms, key=lambda p: p.area)]: the first polygon of greatest
    area; [None] is the [ValueError] on an empty sequence. *)
Definition max_area (geoms : list polygon) : option polygon :=
  match geoms with
  | [] => None
  | p :: rest => Some (max_area_go p rest)
  end.

Definition concave_hull (points : list point) (alpha : float) : geom polygon :=
  if (length points <? 4)%nat then convex_hull points
  else
    match alphashape points alpha with
    | Some (GPolygon hull) => GPolygon hull
    | Some (GMultiPolygon geoms) =>
        match max_area geoms with
        | Some p => GPolygon p
        | None => convex_hull points          (* except *)
        end
    | Some (GOther _) => convex_hull points   (* else: fallback *)
    | None => convex_hull points              (* except *)
    end.

(** ** simplify_polygon *)

(** The [while] loop, with the iterations left as fuel; [None] when the
    fuel does not suffice. *)
Fixpoint simplify_while (fuel : nat) (poly : polygon) (max_points : nat)
    (tolerance : float) (simplified : polygon) : option (float * polygon) :=
  if (max_points <? length (exterior_coords simplified))%nat
     && (tolerance <? 10)%float
  then
    match fuel with
    | O => None
    | S fuel' =>
        let tolerance := (tolerance + 0.5)%float in
        simplify_while fuel' poly max_points tolerance (simplify poly tolerance)
    end
  else Some (tolerance, simplified).

(** Twenty steps of 0.5 from 0.1 pass 10, so twenty iterations are all
    the loop can make ([simplify_while_terminates]). *)
Definition simplify_fuel : nat := 20.

Definition simplify_polygon (poly : geom polygon) (max_points : nat) : geom polygon :=
  match poly with
  | GPolygon p =>
      let tolerance := 0.1%float in
      let simplified := simplify p tolerance in
      match simplify_while simplify_fuel p max_points tolerance simplified with
      | Some (_, simplified) => GPolygon simplified
      | None => GPolygon simplified
      end
  | _ => poly
  end.

(** ** extract_xy *)

Definition extract_part (xy : option float * option float) (part : string)
    : option float * option float :=
  let '(x, y) := xy in
  let x := if PyStr.startswith part "X"
           then match py_float (PyStr.tail part) with
                | Some v => Some v
                | None => x
                end
           else x in
  let y := if PyStr.startswith part "Y"
           then match py_float (PyStr.tail part) with
                | Some v => Some v
                | None => y
                end
           else y in
  (x, y).

Definition extract_xy (line : string) : option float * option float :=
  fold_left extract_part (PyStr.split line) (None, None).

(** ** main: the scan of the stream *)

(** A value of the dict [objects]. The source also stores a [center]
    field, always [None] and never read. *)
Record ObjectRecord := {
  obj_name : string;
  obj_points : list point;    (* a set: no two equal points *)
}.

Record ScanState := {
  objects : list (Z * ObjectRecord);
  output_lines : list string;
  current_object_id : option Z;
  in_support : bool;
  insert_position : option nat;
}.

Definition initial_state : ScanState :=
  {| objects := []; output_lines := []; current_object_id := None;
     in_support := false; insert_position := None |}.

Definition set_objects (st : ScanState) (o : list (Z * ObjectRecord)) : ScanState :=
  {| objects := o; output_lines := output_lines st;
     current_object_id := current_object_id st;
     in_support := in_support st; insert_position := insert_position st |}.

Definition set_current (st : ScanState) (c : option Z) : ScanState :=
  {| objects := objects st; output_lines := output_lines st;
     current_object_id := c;
     in_support := in_support st; insert_position := insert_position st |}.

Definition set_support (st : ScanState) (b : bool) : ScanState :=
  {| objects := objects st; output_lines := output_lines st;
     current_object_id := current_object_id st;
     in_support := b; insert_position := insert_position st |}.

(** [obj_id in objects] *)
Definition has_id (objs : list (Z * ObjectRecord)) (obj_id : Z) : bool :=
  existsb (fun ko => ko.1 =? obj_id) objs.

(** [points.add(p)]. The list holds the elements of the set; its order is
    the order of insertion and stands for no order of the Python set. *)
Definition set_add (p : point) (points : list point) : list point :=
  if existsb (point_eqb p) points then points else points ++ [p].

(** [objects[obj_id]["points"].add(p)]. The key is present whenever the
    scan gets here ([scan_current_known]). *)
Fixpoint add_point (objs : list (Z * ObjectRecord)) (obj_id : Z) (p : point)
    : list (Z * ObjectRecord) :=
  match objs with
  | [] => []
  | (k, o) :: rest =>
      if k =? obj_id
      then (k, {| obj_name := obj_name o; obj_points := set_add p (obj_points o) |}) :: rest
      else (k, o) :: add_point rest obj_id p
  end.

(** The condition under which a line becomes the insertion point. *)
Definition anchor_line (ls : string) : bool :=
  negb (PyStr.is_empty ls) && negb (PyStr.startswith ls ";")
  && (PyStr.startswith ls "G" || PyStr.startswith ls "M").

(** [int(ls.split("id:")[1].split()[0])]; [None] when it raises. *)
Definition parse_obj_id (ls : string) : option Z :=
  match PyStr.split_on ls "id:" with
  | _ :: after :: _ =>
      match PyStr.split after with
      | token :: _ => py_int token
      | [] => None
      end
  | _ => None
  end.

(** The branch taken on a line that starts with "; printing object". *)
Definition start_object (st : ScanState) (ls : string) : ScanState :=
  let st := set_support st false in
  let name_start := PyStr.find ls "object" + 7 in
  let id_start := PyStr.find ls "id:" in
  if (7 <? name_start) && (0 <? id_start) then
    let name := PyStr.strip (PyStr.slice ls name_start id_start) in
    match parse_obj_id ls with
    | None => st
    | Some obj_id =>
        let st := set_current st (Some obj_id) in
        if has_id (objects st) obj_id then st
        else set_objects st
               (objects st ++ [(obj_id, {| obj_name := name; obj_points := [] |})])
    end
  else st.

(** The last [if] of the loop body: collect the XY of a move. *)
Definition collect_move (st : ScanState) (ls : string) : ScanState :=
  match current_object_id st with
  | Some obj_id =>
      if negb (in_support st)
         && (PyStr.startswith ls "G1" || PyStr.startswith ls "G0")
      then
        match extract_xy ls with
        | (Some x, Some y) =>
            set_objects st (add_point (objects st) obj_id (py_round x 2, py_round y 2))
        | _ => st
        end
      else st
  | None => st
  end.

(** One iteration of [for i, line in enumerate(lines)]. *)
Definition scan_line (st : ScanState) (line : string) : ScanState :=
  let ls := PyStr.strip line in
  let out := output_lines st ++ [line] in
  let pos :=
    match insert_position st with
    | None => if anchor_line ls then Some (length out - 1)%nat else None
    | Some p => Some p
    end in
  let st := {| objects := objects st; output_lines := out;
               current_object_id := current_object_id st;
               in_support := in_support st; insert_position := pos |} in
  if PyStr.startswith ls "; printing object" then start_object st ls
  else if PyStr.startswith ls "; stop printing object" then set_current st None
  else if PyStr.contains ls ";TYPE:Support"
          || PyStr.contains (PyStr.lower ls) ";type:support"
  then set_support st true
  else
    let st := if PyStr.contains ls ";TYPE:" && negb (PyStr.contains ls ";TYPE:Support")
              then set_support st false else st in
    collect_move st ls.

Definition scan (lines : list string) : ScanState :=
  fold_left scan_line lines initial_state.

(** ** main: the definition commands *)

Definition quote : string := String (ascii_of_nat 34) EmptyString.
Definition newline : string := String (ascii_of_nat 10) EmptyString.

Definition unique_name (name : string) (copy_number : nat) : string :=
  if (0 <? copy_number)%nat
  then (name ++ "_copy" ++ PyStr.of_nat copy_number)%string
  else name.

Definition coord_str (c : point) : string :=
  (float_str (py_round c.1 3) ++ "," ++ float_str (py_round c.2 3))%string.

Definition polygon_str (coords : list point) : string :=
  ("[[" ++ String.concat "],[" (map coord_str coords) ++ "]]")%string.

Definition define_cmd (unique_name : string) (center_x center_y : float)
    (polygon_str : string) : string :=
  ("EXCLUDE_OBJECT_DEFINE NAME=" ++ quote ++ unique_name ++ quote ++ " "
   ++ "CENTER=" ++ float_str (py_round center_x 3) ++ ","
   ++ float_str (py_round center_y 3) ++ " "
   ++ "POLYGON=" ++ polygon_str ++ newline)%string.

(** The body of the loop over [objects.items()] after the copy number is
    taken: the command of one object, or [None] when the object is skipped
    (by a [continue], or by the [except] around the hull computation). *)
Definition finalize (name : string) (copy_number : nat) (points : list point)
    : option string :=
  if (length points <? 3)%nat then None
  else
    let hull := concave_hull points 0.5 in
    if is_empty hull then None
    else
      match simplify_polygon hull 40 with
      | GPolygon hull =>
          let coords := exterior_coords hull in
          match coords with
          | [] => None                        (* ZeroDivisionError *)
          | _ :: _ =>
              let n := float_of_nat (length coords) in
              let center_x := (py_sum coords.*1 / n)%float in
              let center_y := (py_sum coords.*2 / n)%float in
              Some (define_cmd (unique_name name copy_number) center_x center_y
                      (polygon_str coords))
          end
      | _ => None                             (* no attribute exterior *)
      end.

(** One iteration of [for obj_id, obj_data in objects.items()]. *)
Definition emit_object (acc : gmap string nat * list string)
    (item : Z * ObjectRecord) : gmap string nat * list string :=
  let '(name_counts, define_commands) := acc in
  let name := obj_name item.2 in
  let copy_number := default 0%nat (name_counts !! name) in
  let name_counts := <[name := S copy_number]> name_counts in
  match finalize name copy_number (obj_points item.2) with
  | Some cmd => (name_counts, define_commands ++ [cmd])
  | None => (name_counts, define_commands)
  end.

Definition define_commands (objs : list (Z * ObjectRecord)) : list string :=
  (fold_left emit_object objs (∅, [])).2.

(** ** main: the output stream *)

(** [l.insert(i, x)] for [i] not negative; past the end it appends. *)
Definition py_insert {A} (i : nat) (x : A) (l : list A) : list A :=
  take i l ++ x :: drop i l.

Definition marker : string :=
  (newline ++ "; Generated by exact_outline_post.py" ++ newline)%string.

Definition insert_commands (insert_position : nat) (define_commands : list string)
    (output_lines : list string) : list string :=
  match define_commands with
  | [] => output_lines
  | _ :: _ =>
      let out := py_insert insert_position marker output_lines in
      let out := fold_left (fun out cmd => py_insert (insert_position + 1) cmd out)
                   (rev define_commands) out in
      py_insert (insert_position + 1 + length define_commands) newline out
  end.

(** The lines [main] writes for the lines it read. *)
Definition main (lines : list string) : list string :=
  let st := scan lines in
  let define_commands := define_commands (objects st) in
  let insert_position := default 0%nat (insert_position st) in
  insert_commands insert_position define_commands (output_lines st).

End Program.

(** ** What the properties are stated with *)

Section Notions.
Context `{!Builtins, !Shapely}.

(** The value of the last field of [parts] that starts with [axis] and
    whose remainder parses as a float. *)
Definition last_parsed (axis : string) (parts : list string) : option float :=
  last (omap (fun part => if PyStr.startswith part axis
                          then py_float (PyStr.tail part) else None) parts).

(** A line can anchor the insertion: stripped, it is not empty, is not a
    comment, and starts with G or with M. *)
Definition qualifies (line : string) : Prop :=
  let ls := PyStr.strip line in
  ls <> EmptyString /\ PyStr.startswith ls ";" = false
  /\ (PyStr.startswith ls "G" = true \/ PyStr.startswith ls "M" = true).

(** The lines spliced in for a list of commands. *)
Definition block (cmds : list string) : list string :=
  match cmds with
  | [] => []
  | _ :: _ => marker :: cmds ++ [newline]
  end.

(** How many of the first [i] objects carry the name [name]. *)
Definition earlier_same_name (objs : list (Z * ObjectRecord)) (i : nat)
    (name : string) : nat :=
  length (filter (fun item => obj_name item.2 = name) (take i objs)).

(** What the [i]-th object of the mapping contributes: its command, built
    with the count of earlier objects of its name, or nothing. *)
Definition object_outcome (objs : list (Z * ObjectRecord)) (i : nat)
    : option string :=
  item ← objs !! i;
  finalize (obj_name item.2)
    (earlier_same_name objs i (obj_name item.2)) (obj_points item.2).

(** The emitter as the specification words it: the copy index of a record
    is the number of records emitted before it under the same name
    ([emitted] lists the names of the records emitted so far). *)
Fixpoint spec_define_commands (emitted : list string)
    (objs : list (Z * ObjectRecord)) : list string :=
  match objs with
  | [] => []
  | item :: rest =>
      let name := obj_name item.2 in
      let copy_index := length (filter (fun n => n = name) emitted) in
      match finalize name copy_index (obj_points item.2) with
      | Some cmd => cmd :: spec_define_commands (emitted ++ [name]) rest
      | None => spec_define_commands emitted rest
      end
  end.

(** The alpha shape of [points] is a polygon the program can use. *)
Definition concave_ok (points : list point) : bool :=
  (4 <=? length points)%nat
  && match alphashape points 0.5 with
     | Some (GPolygon _) => true
     | Some (GMultiPolygon (_ :: _)) => true
     | _ => false
     end.

(** The convex hull of [points] is a polygon the program can use. *)
Definition convex_ok (points : list point) : bool :=
  match convex_hull points with
  | GPolygon p => negb (polygon_is_empty p)
  | _ => false
  end.

(** A geometry the program can turn into a command: a polygon that is
    not empty. *)
Definition usable (g : geom polygon) : bool :=
  match g with
  | GPolygon p => negb (polygon_is_empty p)
  | _ => false
  end.

(** The contract assumed of alphashape: a polygon it returns, alone or as
    a member of a multi-polygon, is not empty. *)
Definition alphashape_nonempty : Prop :=
  forall points alpha g,
    alphashape points alpha = Some g ->
    match g with
    | GPolygon p => polygon_is_empty p = false
    | GMultiPolygon geoms => Forall (fun p => polygon_is_empty p = false) geoms
    | GOther _ => True
    end.

(** The contract assumed of shapely's topology-preserving simplification:
    it does not empty a polygon. *)
Definition simplify_nonempty : Prop :=
  forall p tolerance,
    polygon_is_empty p = false ->
    polygon_is_empty (simplify p tolerance) = false.

(** What the scan maintains: the ids of the mapping are distinct, and the
    active id is one of them. *)
Definition scan_inv (st : ScanState) : Prop :=
  NoDup (objects st).*1
  /\ forall obj_id, current_object_id st = Some obj_id -> obj_id ∈ (objects st).*1.

(** [g] is the triangle on [a], [b], [c]: a polygon whose ring visits the
    three points and closes on the first. *)
Definition is_triangle_of (a b c : point) (g : geom polygon) : Prop :=
  exists p v0 v1 v2,
    g = GPolygon p /\ exterior_coords p = [v0; v1; v2; v0]
    /\ [v0; v1; v2] ≡ₚ [a; b; c].

(** The tolerance after [k] passes through the loop of
    [simplify_polygon]. *)
Definition tolerance_at (k : nat) : float :=
  Nat.iter k (fun t => t + 0.5)%float 0.1%float.

(** The loop of [simplify_polygon] goes round once more at pass [k]. *)
Definition over_cap (poly : polygon) (max_points k : nat) : Prop :=
  (max_points < length (exterior_coords (simplify poly (tolerance_at k))))%nat
  /\ (tolerance_at k <? 10)%float = true.

(** The arithmetic mean of a list of floats as Python computes it:
    [sum(l) / len(l)]. *)
Definition mean (l : list float) : float :=
  (py_sum l / float_of_nat (length l))%float.

(** The definition command of a ring of coordinates, as the output
    protocol words it: the name, the mean of the coordinates as center,
    and the coordinates, each number after [round(_, 3)]. *)
Definition ring_command (name : string) (copy_number : nat)
    (coords : list point) : string :=
  ("EXCLUDE_OBJECT_DEFINE NAME=" ++ quote
   ++ unique_name name copy_number ++ quote ++ " "
   ++ "CENTER=" ++ float_str (py_round (mean coords.*1) 3) ++ ","
   ++ float_str (py_round (mean coords.*2) 3) ++ " "
   ++ "POLYGON="
   ++ ("[[" ++ String.concat "],["
                (map (fun c => float_str (py_round c.1 3) ++ ","
                               ++ float_str (py_round c.2 3)) coords)
       ++ "]]")
   ++ newline)%string.

End Notions.

(** ** What the properties of the scan are stated with *)

Section ScanNotions.
Context `{!Builtins, !Shapely}.

(** [objects.get(obj_id)] *)
Fixpoint get_object (objs : list (Z * ObjectRecord)) (obj_id : Z)
    : option ObjectRecord :=
  match objs with
  | [] => None
  | (k, o) :: rest => if k =? obj_id then Some o else get_object rest obj_id
  end.

(** The ids of the mapping with their names, in order. *)
Definition ids_names (objs : list (Z * ObjectRecord)) : list (Z * string) :=
  map (fun ko => (ko.1, obj_name ko.2)) objs.

(** The id and the name a line announces: the line, stripped, starts an
    object, an integer follows its first "id:", and the name is the text
    from index 18 to that "id:", stripped. *)
Definition marker_of (line : string) : option (Z * string) :=
  let ls := PyStr.strip line in
  if PyStr.startswith ls "; printing object" then
    match parse_obj_id ls with
    | Some obj_id =>
        Some (obj_id, PyStr.strip (PyStr.slice ls 18 (PyStr.find ls "id:")))
    | None => None
    end
  else None.

(** Keep an announced object unless its id was announced before. *)
Definition first_marker (acc : list (Z * string)) (m : Z * string)
    : list (Z * string) :=
  if decide (m.1 ∈ acc.*1) then acc else acc ++ [m].

(** No point of the list equals, by [==], a point before it. *)
Definition distinct_points (points : list point) : Prop :=
  forall i j p q,
    (i < j)%nat -> points !! i = Some p -> points !! j = Some q ->
    point_eqb q p = false.

(** [line] is a move whose two coordinates parse, and [p] is the pair of
    them rounded to two decimals. *)
Definition move_gives (line : string) (p : point) : Prop :=
  let ls := PyStr.strip line in
  (PyStr.startswith ls "G1" = true \/ PyStr.startswith ls "G0" = true)
  /\ exists x y, extract_xy ls = (Some x, Some y)
                 /\ p = (py_round x 2, py_round y 2).

End ScanNotions.

(** ** Stand-ins for the builtins and for shapely

    Executable instances of the two interfaces, for running the program on
    concrete streams. Each agrees with the real function on the inputs the
    examples use, as its comment says. *)

Module Fixture.

Definition digit_of (c : ascii) : option Z :=
  let n := nat_of_ascii c in
  if ((48 <=? n) && (n <=? 57))%nat then Some (Z.of_nat n - 48) else None.

(** The number a non-empty string of decimal digits writes. *)
Fixpoint digits_go (s : string) (acc : Z) : option Z :=
  match s with
  | EmptyString => Some acc
  | String c s' =>
      match digit_of c with
      | Some d => digits_go s' (10 * acc + d)
      | None => None
      end
  end.

Definition digits (s : string) : option Z :=
  match s with EmptyString => None | _ => digits_go s 0 end.

(** [int(s)] on an optional minus sign and decimal digits. *)
Definition fx_int (s : string) : option Z :=
  match s with
  | String "-" s' => Z.opp <$> digits s'
  | _ => digits s
  end.

Definition float_of_Z (z : Z) : float :=
  if z <? 0 then (- PrimFloat.of_uint63 (Uint63.of_Z (- z)))%float
  else PrimFloat.of_uint63 (Uint63.of_Z z).

(** [float(s)] on decimal literals (digits with at most one point, an
    optional minus sign, at most 15 characters): numerator and power of
    ten are then exact doubles, and their IEEE quotient is the nearest
    double. Other spellings Python accepts are outside this stand-in. *)
Definition fx_float_unsigned (s : string) : option float :=
  match PyStr.split_on s "." with
  | [i] => float_of_Z <$> digits i
  | [i; f] =>
      match digits (i ++ f)%string with
      | Some n =>
          Some (float_of_Z n / float_of_Z (10 ^ Z.of_nat (String.length f)))%float
      | None => None
      end
  | _ => None
  end.

Definition fx_float (s : string) : option float :=
  if (15 <? String.length s)%nat then None
  else match s with
       | String "-" s' => PrimFloat.opp <$> fx_float_unsigned s'
       | _ => fx_float_unsigned s
       end.

(** The exact value of a finite float, times [10^places], rounded to the
    nearest integer, ties to even. *)
Definition scaled (x : float) (places : Z) : option Z :=
  match FloatOps.Prim2SF x with
  | SpecFloat.S754_zero _ => Some 0
  | SpecFloat.S754_finite s m e =>
      let num := Z.pos m * 10 ^ places * 2 ^ Z.max e 0 in
      let den := 2 ^ Z.max (- e) 0 in
      let q := num / den in
      let r := 2 * (num mod den) in
      let q := if (den <? r) || ((r =? den) && Z.odd q) then q + 1 else q in
      Some (if s then - q else q)
  | _ => None
  end.

Definition is_negative (x : float) : bool :=
  match FloatOps.Prim2SF x with
  | SpecFloat.S754_zero s | SpecFloat.S754_finite s _ _ => s
  | _ => false
  end.

(** [round(x, ndigits)] for [ndigits] not negative and [x] of moderate
    size: the nearest double to the rounded decimal, with the sign of
    [x]. *)
Definition fx_round (x : float) (ndigits : Z) : float :=
  match scaled x ndigits with
  | Some q =>
      let r := (float_of_Z (Z.abs q) / float_of_Z (10 ^ ndigits))%float in
      if is_negative x then (- r)%float else r
  | None => x
  end.

Definition pad3 (n : Z) : string :=
  let s := PyStr.of_nat (Z.to_nat n) in
  if n <? 10 then ("00" ++ s)%string
  else if n <? 100 then ("0" ++ s)%string else s.

Fixpoint strip_zeros (fuel : nat) (s : string) : string :=
  match fuel with
  | O => s
  | S fuel' =>
      match PyStr.rstrip (String.substring (String.length s - 1) 1 s) with
      | "0" => if (1 <? String.length s)%nat
               then strip_zeros fuel' (String.substring 0 (String.length s - 1) s)
               else s
      | _ => s
      end
  end.

(** The [repr] of a float that is the nearest double of a decimal with at
    most three places, below 10^15 in size: the digits of that decimal.
    Other floats print as a question mark. *)
Definition fx_str (x : float) : string :=
  match scaled x 3 with
  | Some q =>
      if (fx_round x 3 =? x)%float && (Z.abs q <? 10 ^ 15) then
        ((if is_negative x then "-" else "")
         ++ PyStr.of_nat (Z.to_nat (Z.abs q / 1000)) ++ "."
         ++ strip_zeros 2 (pad3 (Z.abs q mod 1000)))%string
      else "?"
  | None => "?"
  end.

(** [sum] is the plain sum of CPython up to 3.11; on the sums of the
    examples, which are exact, the compensated sum of 3.12 is the same
    ([sum_of_either_version]). *)
#[export] Instance builtins : Builtins :=
  {| py_float := fx_float; py_int := fx_int;
     py_round := fx_round; py_sum := float_sum; float_str := fx_str |}.

(** [MultiPoint(points).convex_hull] of fewer than three distinct points:
    empty, a point or a segment. Sets of four and more points are outside
    this stand-in and answer as a segment does. *)
Definition fx_hull_of_others (points : list point) : geom (list point) :=
  match points with
  | [] => GOther true
  | _ => GOther false
  end.

(** Shapely with the alphashape package not installed: the import raises.
    A polygon is its exterior ring; a triangle simplifies to itself. *)
#[export] Instance shapely : Shapely :=
  ring_shapely (fun _ => 0%float) (fun p _ => p) fx_hull_of_others
    (fun _ _ => None).

End Fixture.

(** ** Sample streams *)

Module Streams.

Definition lines_of (l : list string) : list string :=
  map (fun s => (s ++ newline)%string) l.

(** Two objects named Cube, three moves each. *)
Definition two_cubes : list string :=
  lines_of [ "; two cubes"; "M104 S200";
             "; printing object Cube id:1"; ";TYPE:Outer wall";
             "G1 X0 Y0"; "G1 X4 Y0"; "G1 X0 Y4";
             "; stop printing object Cube id:1";
             "; printing object Cube id:2";
             "G1 X10 Y0"; "G1 X14 Y0"; "G1 X10 Y4";
             "; stop printing object Cube id:2" ].

(** The same, but the first Cube has only two moves and is skipped. *)
Definition skipped_cube : list string :=
  lines_of [ "; two cubes"; "M104 S200";
             "; printing object Cube id:1"; ";TYPE:Outer wall";
             "G1 X0 Y0"; "G1 X4 Y0";
             "; stop printing object Cube id:1";
             "; printing object Cube id:2";
             "G1 X10 Y0"; "G1 X14 Y0"; "G1 X10 Y4";
             "; stop printing object Cube id:2" ].

(** One object with a support region, the markers in lower case. *)
Definition lower_case_markers : list string :=
  lines_of [ "; printing object Cube id:1";
             "G1 X0 Y0";
             ";type:support";
             "G1 X9 Y9";
             ";type:outer wall";
             "G1 X4 Y0"; "G1 X0 Y4";
             "; stop printing object Cube id:1" ].

(** The same stream with the markers as the slicer writes them. *)
Definition upper_case_markers : list string :=
  lines_of [ "; printing object Cube id:1";
             "G1 X0 Y0";
             ";TYPE:Support";
             "G1 X9 Y9";
             ";TYPE:Outer wall";
             "G1 X4 Y0"; "G1 X0 Y4";
             "; stop printing object Cube id:1" ].

(** Three points of an object, not on one line. *)
Definition triangle : list point := [(0, 0)%float; (4, 0)%float; (0, 4)%float].

(** The command of a triangle, as the program writes it. *)
Definition cube_1 : string :=
  ("EXCLUDE_OBJECT_DEFINE NAME=" ++ quote ++ "Cube" ++ quote
   ++ " CENTER=1.0,1.0 POLYGON=[[0.0,0.0],[0.0,4.0],[4.0,0.0],[0.0,0.0]]"
   ++ newline)%string.

Definition cube_2 (name : string) : string :=
  ("EXCLUDE_OBJECT_DEFINE NAME=" ++ quote ++ name ++ quote
   ++ " CENTER=11.0,1.0 POLYGON=[[10.0,0.0],[10.0,4.0],[14.0,0.0],[10.0,0.0]]"
   ++ newline)%string.

End Streams.

(** ** The string methods on sample lines *)

Example strip_ex : PyStr.strip "  G1 X1 Y2 " = "G1 X1 Y2".
Proof. reflexivity. Qed.
Example split_ex : PyStr.split " G1  X1.5 Y2 " = ["G1"; "X1.5"; "Y2"].
Proof. reflexivity. Qed.
Example split_on_ex : PyStr.split_on "a id:7 b id:8" "id:" = ["a "; "7 b "; "8"].
Proof. reflexivity. Qed.
Example find_ex : PyStr.find "; printing object Cube id:5" "object" = 11.
Proof. reflexivity. Qed.
Example find_none_ex : PyStr.find "; printing object Cube" "id:" = -1.
Proof. reflexivity. Qed.
Example lower_ex : PyStr.lower ";Type:SUPPORT" = ";type:support".
Proof. reflexivity. Qed.
Example slice_ex : PyStr.slice "; printing object Cube id:5" 18 23 = "Cube ".
Proof. reflexivity. Qed.
Example of_nat_ex : PyStr.of_nat 12 = "12".
Proof. reflexivity. Qed.

(** ** Properties of the program *)

Section Properties.
Context `{!Builtins, !Shapely}.

(** *** extract_xy *)

Lemma extract_parts_fold (parts : list string) (x y : option float) :
  fold_left extract_part parts (x, y)
  = (match last_parsed "X" parts with Some v => Some v | None => x end,
     match last_parsed "Y" parts with Some v => Some v | None => y end).
Proof.
  revert x y. induction parts as [|part parts IH]; intros x y; [done|].
  cbn [fold_left extract_part]. rewrite IH. unfold last_parsed.
  cbn [omap list_omap].
  f_equal.
  - destruct (PyStr.startswith part "X"); [|done].
    destruct (py_float (PyStr.tail part)) as [v|]; [|done].
    rewrite last_cons. by destruct (last _).
  - destruct (PyStr.startswith part "Y"); [|done].
    destruct (py_float (PyStr.tail part)) as [v|]; [|done].
    rewrite last_cons. by destruct (last _).
Qed.

(** C10. On every line, [extract_xy] returns for each axis the value of
    the last whitespace-delimited field that starts with the axis letter
    and parses as a float: a later field that does not parse leaves the
    earlier value, and with no parseable field the axis has no value. *)
Theorem extract_xy_last_parsed (line : string) :
  extract_xy line
  = (last_parsed "X" (PyStr.split line), last_parsed "Y" (PyStr.split line)).
Proof.
  unfold extract_xy. rewrite extract_parts_fold.
  by destruct (last_parsed "X" _), (last_parsed "Y" _).
Qed.

(** A malformed later field keeps the value parsed before it. *)
Lemma last_parsed_malformed_after (axis : string) (parts : list string) (bad : string) :
  py_float (PyStr.tail bad) = None ->
  last_parsed axis (parts ++ [bad]) = last_parsed axis parts.
Proof.
  intros Hbad. unfold last_parsed. rewrite omap_app. cbn [omap list_omap].
  rewrite Hbad. destruct (PyStr.startswith bad axis); by rewrite app_nil_r.
Qed.

(** *** The scan: output lines and insertion point *)

Lemma start_object_frame (st : ScanState) (ls : string) :
  output_lines (start_object st ls) = output_lines st
  /\ insert_position (start_object st ls) = insert_position st.
Proof. unfold start_object. by repeat case_match. Qed.

Lemma collect_move_frame (st : ScanState) (ls : string) :
  output_lines (collect_move st ls) = output_lines st
  /\ insert_position (collect_move st ls) = insert_position st.
Proof. unfold collect_move. by repeat case_match. Qed.

Lemma scan_line_output (st : ScanState) (line : string) :
  output_lines (scan_line st line) = output_lines st ++ [line].
Proof.
  unfold scan_line.
  repeat case_match;
    rewrite ?(proj1 (start_object_frame _ _)), ?(proj1 (collect_move_frame _ _));
    done.
Qed.

Lemma scan_line_position (st : ScanState) (line : string) :
  insert_position (scan_line st line)
  = match insert_position st with
    | Some p => Some p
    | None => if anchor_line (PyStr.strip line)
              then Some (length (output_lines st)) else None
    end.
Proof.
  assert (Hlen : (length (output_lines st ++ [line]) - 1)%nat
                 = length (output_lines st)).
  { rewrite length_app. simpl. lia. }
  unfold scan_line.
  repeat case_match;
    rewrite ?(proj2 (start_object_frame _ _)), ?(proj2 (collect_move_frame _ _));
    simpl; rewrite ?Hlen; congruence.
Qed.

Lemma anchor_line_qualifies (line : string) :
  anchor_line (PyStr.strip line) = true <-> qualifies line.
Proof.
  unfold anchor_line, qualifies. cbv zeta.
  destruct (PyStr.strip line) as [|c ls]; simpl.
  - split; [done|]. by intros [? _].
  - rewrite andb_true_iff, negb_true_iff, orb_true_iff. intuition discriminate.
Qed.

#[local] Instance qualifies_dec (line : string) : Decision (qualifies line).
Proof.
  destruct (anchor_line (PyStr.strip line)) eqn:E.
  - left. by apply anchor_line_qualifies.
  - right. rewrite <- anchor_line_qualifies. congruence.
Defined.

Lemma fold_scan_output (lines : list string) (st : ScanState) :
  output_lines (fold_left scan_line lines st) = output_lines st ++ lines.
Proof.
  revert st. induction lines as [|line lines IH]; intros st; simpl.
  - by rewrite app_nil_r.
  - rewrite IH, scan_line_output, <- app_assoc. done.
Qed.

Lemma fold_scan_position (lines : list string) (st : ScanState) :
  insert_position (fold_left scan_line lines st)
  = match insert_position st with
    | Some p => Some p
    | None => (fun r => (length (output_lines st) + r.1)%nat)
                <$> list_find qualifies lines
    end.
Proof.
  revert st. induction lines as [|line lines IH]; intros st; simpl.
  - by destruct (insert_position st).
  - rewrite IH, scan_line_position, scan_line_output.
    destruct (insert_position st) as [p|]; [done|].
    destruct (decide (qualifies line)) as [Hq|Hq].
    + apply anchor_line_qualifies in Hq as ->. simpl. f_equal. lia.
    + destruct (anchor_line (PyStr.strip line)) eqn:E.
      { exfalso. by apply Hq, anchor_line_qualifies. }
      destruct (list_find qualifies lines) as [[i l]|]; simpl; [|done].
      rewrite length_app. simpl. f_equal. lia.
Qed.

Lemma scan_output (lines : list string) : output_lines (scan lines) = lines.
Proof. unfold scan. by rewrite fold_scan_output. Qed.

Lemma scan_position (lines : list string) :
  insert_position (scan lines) = fst <$> list_find qualifies lines.
Proof.
  unfold scan. rewrite fold_scan_position. simpl.
  by destruct (list_find qualifies lines) as [[i l]|].
Qed.

(** C7. The insertion point of a stream is the index of its first
    qualifying line (no line before it qualifies); a recorded insertion
    point survives every later line; and when no line qualifies the
    commands are inserted at position 0. *)
Theorem anchor_is_first_qualifying_line (lines : list string) :
  match insert_position (scan lines) with
  | Some i =>
      (exists line, lines !! i = Some line /\ qualifies line)
      /\ forall j line, lines !! j = Some line -> (j < i)%nat -> ~ qualifies line
  | None => forall line, line ∈ lines -> ~ qualifies line
  end
  /\ main lines
     = insert_commands (default 0%nat (insert_position (scan lines)))
         (define_commands (objects (scan lines))) lines
  /\ forall st line p,
       insert_position st = Some p ->
       insert_position (scan_line st line) = Some p.
Proof.
  split; [|split].
  - rewrite scan_position.
    destruct (list_find qualifies lines) as [[i l]|] eqn:E; simpl.
    + apply list_find_Some in E as (Hl & Hq & Hmin). eauto.
    + apply list_find_None in E.
      intros line Hin. by eapply Forall_forall in E.
  - unfold main. by rewrite scan_output.
  - intros st line p Hp. by rewrite scan_line_position, Hp.
Qed.

(** *** The splice of the commands into the output *)

Lemma py_insert_at {A} (pre post : list A) (x : A) :
  py_insert (length pre) x (pre ++ post) = pre ++ x :: post.
Proof.
  unfold py_insert. by rewrite take_app_length, drop_app_length.
Qed.

Lemma insert_reversed (n : nat) (cmds pre post : list string) :
  length pre = n ->
  fold_left (fun out cmd => py_insert n cmd out) cmds (pre ++ post)
  = pre ++ rev cmds ++ post.
Proof.
  intros <-. revert post.
  induction cmds as [|cmd cmds IH]; intros post; simpl; [done|].
  rewrite py_insert_at, IH, <- app_assoc. done.
Qed.

Lemma insert_commands_block (p : nat) (cmds out : list string) :
  (p <= length out)%nat ->
  insert_commands p cmds out = take p out ++ block cmds ++ drop p out.
Proof.
  intros Hp. destruct cmds as [|cmd cmds]; [simpl; by rewrite take_drop|].
  unfold insert_commands, block. cbv zeta. set (cs := cmd :: cmds).
  assert (Hpre : length (take p out) = p) by (rewrite length_take; lia).
  assert (H1 : py_insert p marker out = (take p out ++ [marker]) ++ drop p out).
  { unfold py_insert. by rewrite <- app_assoc. }
  rewrite H1, insert_reversed by (rewrite length_app; simpl; lia).
  rewrite rev_involutive.
  assert (H2 : (take p out ++ [marker]) ++ cs ++ drop p out
               = (take p out ++ marker :: cs) ++ drop p out).
  { by rewrite <- !app_assoc. }
  assert (H3 : (p + 1 + length cs)%nat = length (take p out ++ marker :: cs)).
  { rewrite length_app. simpl. lia. }
  rewrite H2, H3, py_insert_at, <- !app_assoc. simpl. by rewrite <- app_assoc.
Qed.

Lemma scan_position_bound (lines : list string) (i : nat) :
  insert_position (scan lines) = Some i -> (i < length lines)%nat.
Proof.
  rewrite scan_position.
  destruct (list_find qualifies lines) as [[j l]|] eqn:E; [|done].
  intros [= <-]. apply list_find_Some in E as (Hl & _).
  by apply lookup_lt_Some in Hl.
Qed.

(** C6. The output is the input cut in two at the insertion point, with
    the block of commands between the two parts: every input line is kept,
    unchanged and in order; the commands stand together, in the order of
    their emission, after the marker line and before a blank line; and the
    second part starts with the anchor line. Without commands nothing is
    inserted. *)
Theorem output_is_input_with_block (lines : list string) :
  let cmds := define_commands (objects (scan lines)) in
  let p := default 0%nat (insert_position (scan lines)) in
  exists before after,
    lines = before ++ after
    /\ length before = p
    /\ main lines = before ++ block cmds ++ after
    /\ block cmds = match cmds with
                    | [] => []
                    | _ :: _ => [marker] ++ cmds ++ [newline]
                    end
    /\ head after = lines !! p.
Proof.
  intros cmds p.
  assert (Hp : (p <= length lines)%nat).
  { subst p. destruct (insert_position (scan lines)) as [i|] eqn:E; simpl; [|lia].
    apply scan_position_bound in E. lia. }
  exists (take p lines), (drop p lines). split_and!.
  - by rewrite take_drop.
  - rewrite length_take. lia.
  - unfold main. rewrite scan_output. by apply insert_commands_block.
  - by destruct cmds.
  - by rewrite <- (Nat.add_0_r p) at 2; rewrite <- lookup_drop, head_lookup.
Qed.

(** *** The object-start marker *)

(** C9. A line that starts as an object-start marker but yields no id
    (no "id:" token, or nothing after it that [int] accepts) leaves the
    active object id and the object mapping as they were, and clears the
    support flag. *)
Theorem start_marker_without_id (st : ScanState) (line : string) :
  let ls := PyStr.strip line in
  PyStr.startswith ls "; printing object" = true ->
  PyStr.find ls "id:" < 0 \/ parse_obj_id ls = None ->
  let st' := scan_line st line in
  current_object_id st' = current_object_id st
  /\ objects st' = objects st
  /\ in_support st' = false.
Proof.
  intros ls Hstart Hid st'. subst st' ls. unfold scan_line.
  rewrite Hstart. unfold start_object.
  destruct Hid as [Hid|Hid].
  - replace (0 <? PyStr.find (PyStr.strip line) "id:") with false by lia.
    by rewrite andb_false_r.
  - rewrite Hid. by case_match.
Qed.

(** *** simplify_polygon *)

Lemma tolerance_below_bound (k : nat) :
  (k < 20)%nat -> (tolerance_at k <? 10)%float = true.
Proof.
  intros Hk.
  do 20 (destruct k as [|k]; [vm_compute; reflexivity|]). lia.
Qed.

Lemma tolerance_reaches_bound : (10 <=? tolerance_at 20)%float = true.
Proof. vm_compute. reflexivity. Qed.

Lemma simplify_while_from (poly : polygon) (max_points : nat) (n : nat) :
  forall k fuel,
    (k + n = 20)%nat -> (n <= fuel)%nat ->
    (forall j, (j < k)%nat -> over_cap poly max_points j) ->
    exists k',
      (k' <= 20)%nat
      /\ simplify_while fuel poly max_points (tolerance_at k)
           (simplify poly (tolerance_at k))
         = Some (tolerance_at k', simplify poly (tolerance_at k'))
      /\ ((length (exterior_coords (simplify poly (tolerance_at k'))) <= max_points)%nat
          \/ (10 <=? tolerance_at k')%float = true)
      /\ forall j, (j < k')%nat -> over_cap poly max_points j.
Proof.
  induction n as [|n IH]; intros k fuel Hk Hfuel Hbefore.
  - assert (k = 20%nat) as -> by lia.
    exists 20%nat. split; [lia|]. split; [|split; [|done]].
    + destruct fuel; simpl;
        replace (tolerance_at 20 <? 10)%float with false
          by (vm_compute; reflexivity);
        by rewrite andb_false_r.
    + right. apply tolerance_reaches_bound.
  - destruct (decide (max_points
                      < length (exterior_coords (simplify poly (tolerance_at k))))%nat)
      as [Hcap|Hcap].
    + destruct fuel as [|fuel]; [lia|]. simpl.
      rewrite tolerance_below_bound by lia.
      rewrite (proj2 (Nat.ltb_lt _ _) Hcap). simpl.
      apply (IH (S k) fuel); [lia|lia|].
      intros j Hj. destruct (decide (j = k)) as [->|].
      * split; [done|]. apply tolerance_below_bound. lia.
      * apply Hbefore. lia.
    + exists k. split; [lia|]. split; [|split; [left; lia|done]].
      destruct fuel; simpl;
        by rewrite (proj2 (Nat.ltb_ge _ _) (proj1 (Nat.nlt_ge _ _) Hcap)).
Qed.

Lemma simplify_while_more_fuel (fuel extra : nat) (poly : polygon)
    (max_points : nat) (t : float) (s : polygon) (r : float * polygon) :
  simplify_while fuel poly max_points t s = Some r ->
  simplify_while (fuel + extra) poly max_points t s = Some r.
Proof.
  revert t s. induction fuel as [|fuel IH]; intros t s.
  - simpl. destruct (_ && _) eqn:E; [done|].
    intros <-. destruct extra; simpl; by rewrite E.
  - simpl. destruct (_ && _) eqn:E; [|done]. apply IH.
Qed.

(** C3. From tolerance 0.1 the loop of [simplify_polygon] ends within
    twenty passes, whatever fuel beyond twenty it is given. It ends at the
    first pass [k] at which the ring has at most [max_points] vertices or
    the tolerance is no longer below 10; the tolerance is then 0.1 plus
    [k] steps of 0.5, the result is the original polygon simplified at
    that tolerance, and [simplify_polygon] returns it. *)
Theorem simplify_while_terminates (poly : polygon) (max_points extra : nat) :
  exists k,
    (k <= 20)%nat
    /\ simplify_while (simplify_fuel + extra) poly max_points 0.1
         (simplify poly 0.1)
       = Some (tolerance_at k, simplify poly (tolerance_at k))
    /\ simplify_polygon (GPolygon poly) max_points
       = GPolygon (simplify poly (tolerance_at k))
    /\ ((length (exterior_coords (simplify poly (tolerance_at k))) <= max_points)%nat
        \/ (10 <=? tolerance_at k)%float = true)
    /\ forall j, (j < k)%nat ->
         (max_points < length (exterior_coords (simplify poly (tolerance_at j))))%nat
         /\ (tolerance_at j <? 10)%float = true.
Proof.
  destruct (simplify_while_from poly max_points 20 0 simplify_fuel)
    as (k & Hk & Hrun & Hexit & Hbefore);
    [lia | unfold simplify_fuel; lia | intros j Hj; lia |].
  change (tolerance_at 0) with 0.1%float in Hrun.
  exists k. split_and!; [done| |..|done|done].
  - by apply simplify_while_more_fuel.
  - unfold simplify_polygon. cbv zeta. by rewrite Hrun.
Qed.

(** *** concave_hull *)

(** Below four points alphashape is never called. *)
Lemma concave_hull_few_points (points : list point) (alpha : float) :
  (length points < 4)%nat -> concave_hull points alpha = convex_hull points.
Proof.
  intros Hlen. unfold concave_hull.
  by rewrite (proj2 (Nat.ltb_lt _ _) Hlen).
Qed.

(** *** The command of one object *)

(** C5. The command of a finalized object is built from the exterior ring
    of its simplified hull: its center is the mean of all the coordinates
    of the ring as stored, so the vertex that closes a ring is summed and
    counted twice, and the center and every coordinate of the ring are
    written after [round(_, 3)]. The mean is the one Python computes:
    [sum] of the coordinates, as the interpreter adds them, divided by
    their number. *)
Theorem emitted_center_is_ring_mean (name : string) (copy_number : nat)
    (points : list point) (cmd : string) :
  finalize name copy_number points = Some cmd ->
  exists hull,
    simplify_polygon (concave_hull points 0.5) 40 = GPolygon hull
    /\ cmd = ring_command name copy_number (exterior_coords hull)
    /\ forall v mid,
         exterior_coords hull = v :: mid ++ [v] ->
         mean (exterior_coords hull).*1
         = (py_sum (v.1 :: mid.*1 ++ [v.1])
            / float_of_nat (length mid + 2))%float
         /\ mean (exterior_coords hull).*2
            = (py_sum (v.2 :: mid.*2 ++ [v.2])
               / float_of_nat (length mid + 2))%float.
Proof.
  unfold finalize. intros Hfin.
  destruct (length points <? 3)%nat; [done|].
  destruct (is_empty _); [done|].
  destruct (simplify_polygon _ 40) as [hull| |]; [|done..].
  exists hull. split; [done|]. cbv zeta in Hfin.
  destruct (exterior_coords hull) as [|c0 coords] eqn:Hcoords; [done|].
  injection Hfin as <-. split.
  - unfold define_cmd, polygon_str, coord_str, ring_command, mean.
    rewrite !length_fmap. reflexivity.
  - intros v mid Hring. rewrite Hring. unfold mean.
    assert (E1 : (v :: mid ++ [v]).*1 = v.1 :: mid.*1 ++ [v.1])
      by (by rewrite fmap_cons, fmap_app).
    assert (E2 : (v :: mid ++ [v]).*2 = v.2 :: mid.*2 ++ [v.2])
      by (by rewrite fmap_cons, fmap_app).
    assert (L : forall (l : list float) x,
               length (x :: l ++ [x]) = (length l + 2)%nat).
    { intros l x. rewrite length_cons, length_app. simpl. lia. }
    by rewrite E1, E2, !L, !length_fmap.
Qed.

(** Whether an object is emitted does not depend on its name or copy
    number. *)
Lemma finalize_is_Some_points (name name' : string) (c c' : nat) (points : list point) :
  is_Some (finalize name c points) -> is_Some (finalize name' c' points).
Proof.
  unfold finalize. repeat case_match; (done || by inversion 1).
Qed.

(** *** The loop over the objects *)

Lemma omap_ext_in {A B} (f g : A -> option B) (l : list A) :
  (forall x, x ∈ l -> f x = g x) -> omap f l = omap g l.
Proof.
  induction l as [|x l IH]; intros Hfg; [done|]. cbn [omap list_omap].
  rewrite (Hfg x) by left. rewrite IH; [done|].
  intros y Hy. apply Hfg. by right.
Qed.

Lemma object_outcome_app_l (objs extra : list (Z * ObjectRecord)) (i : nat) :
  (i < length objs)%nat ->
  object_outcome (objs ++ extra) i = object_outcome objs i.
Proof.
  intros Hi. unfold object_outcome, earlier_same_name.
  rewrite lookup_app_l by done. rewrite take_app_le by lia. done.
Qed.

Lemma object_outcome_last (objs : list (Z * ObjectRecord)) (item : Z * ObjectRecord) :
  object_outcome (objs ++ [item]) (length objs)
  = finalize (obj_name item.2)
      (length (filter (fun it => obj_name it.2 = obj_name item.2) objs))
      (obj_points item.2).
Proof.
  unfold object_outcome, earlier_same_name.
  rewrite list_lookup_middle by done. simpl.
  by rewrite take_app_length.
Qed.

(** After the loop, [name_counts] holds for each name the number of
    objects that carry it, and [define_commands] the outcomes of the
    objects, in order. *)
Lemma emit_fold (objs : list (Z * ObjectRecord)) :
  let r := fold_left emit_object objs (∅, []) in
  (forall name, default 0%nat (r.1 !! name)
                = length (filter (fun it => obj_name it.2 = name) objs))
  /\ r.2 = omap (object_outcome objs) (seq 0 (length objs)).
Proof.
  induction objs as [|item objs IH] using rev_ind; [done|].
  cbv zeta in *. rewrite fold_left_app. simpl.
  destruct (fold_left emit_object objs (∅, [])) as [nc cmds].
  destruct IH as [Hnc Hcmds]. simpl in Hnc, Hcmds.
  unfold emit_object. rewrite Hnc.
  set (c := length (filter _ objs)).
  assert (Hout : omap (object_outcome (objs ++ [item])) (seq 0 (length (objs ++ [item])))
                 = cmds ++ match finalize (obj_name item.2) c (obj_points item.2) with
                           | Some cmd => [cmd] | None => [] end).
  { rewrite length_app. simpl. rewrite seq_app, omap_app. simpl. f_equal.
    - rewrite Hcmds. apply omap_ext_in. intros i Hi.
      apply elem_of_seq in Hi. apply object_outcome_app_l. lia.
    - by rewrite object_outcome_last. }
  assert (Hcount : forall name,
             default 0%nat (<[obj_name item.2 := S c]> nc !! name)
             = length (filter (fun it => obj_name it.2 = name) (objs ++ [item]))).
  { intros name. rewrite filter_app, length_app.
    destruct (decide (obj_name item.2 = name)) as [<-|Hne].
    - rewrite lookup_insert_eq. rewrite filter_cons_True by done. simpl.
      fold c. lia.
    - rewrite lookup_insert_ne by done. rewrite filter_cons_False by done.
      rewrite Hnc. simpl. lia. }
  destruct (finalize _ c _) as [cmd|]; simpl; split; try done.
  by rewrite Hout, app_nil_r.
Qed.

Lemma define_commands_outcomes (objs : list (Z * ObjectRecord)) :
  define_commands objs = omap (object_outcome objs) (seq 0 (length objs)).
Proof. apply (emit_fold objs). Qed.

Lemma length_omap_le {A B} (f : A -> option B) (l : list A) :
  (length (omap f l) <= length l)%nat.
Proof.
  induction l as [|x l IH]; [done|]. cbn [omap list_omap].
  destruct (f x); simpl; lia.
Qed.

Lemma emit_fold_all_emitted (objs : list (Z * ObjectRecord)) :
  forall (nc : gmap string nat) (cmds emitted : list string),
    (forall name, default 0%nat (nc !! name)
                  = length (filter (fun n => n = name) emitted)) ->
    Forall (fun item => is_Some (finalize (obj_name item.2) 0 (obj_points item.2)))
      objs ->
    (fold_left emit_object objs (nc, cmds)).2
    = cmds ++ spec_define_commands emitted objs.
Proof.
  induction objs as [|item objs IH]; intros nc cmds emitted Hnc Hall; simpl.
  - by rewrite app_nil_r.
  - apply Forall_cons in Hall as [Hitem Hall].
    rewrite Hnc. set (c := length (filter _ emitted)).
    destruct (finalize_is_Some_points _ (obj_name item.2) _ c _ Hitem)
      as [cmd Hcmd].
    rewrite Hcmd.
    rewrite (IH _ _ (emitted ++ [obj_name item.2])); [by rewrite <- app_assoc| |done].
    intros name. rewrite filter_app, length_app.
    destruct (decide (obj_name item.2 = name)) as [<-|Hne].
    + rewrite lookup_insert_eq. rewrite filter_cons_True by done. simpl.
      fold c. lia.
    + rewrite lookup_insert_ne by done. rewrite filter_cons_False by done.
      rewrite Hnc. simpl. lia.
Qed.

(** C1, as the program has it. The copy index of an object is the number
    of objects of the same name that come before it in the mapping,
    emitted or skipped: the commands are the outcomes of the objects in
    encounter order, each built with that count. When every object is
    emitted, this is the number of records emitted before it under the
    same name, and the program produces what the specification words. *)
Theorem copy_index_counts_earlier_objects (objs : list (Z * ObjectRecord)) :
  define_commands objs = omap (object_outcome objs) (seq 0 (length objs))
  /\ (Forall (fun item => is_Some (finalize (obj_name item.2) 0 (obj_points item.2)))
        objs ->
      define_commands objs = spec_define_commands [] objs).
Proof.
  split; [apply define_commands_outcomes|].
  intros Hall. unfold define_commands.
  by rewrite (emit_fold_all_emitted objs ∅ [] []).
Qed.

(** *** The objects the scan collects *)

Lemma has_id_elem_of (objs : list (Z * ObjectRecord)) (obj_id : Z) :
  has_id objs obj_id = true <-> obj_id ∈ objs.*1.
Proof.
  unfold has_id. induction objs as [|[k o] objs IH]; simpl.
  - split; [done|]. by intros ?%elem_of_nil.
  - rewrite orb_true_iff, IH, elem_of_cons, Z.eqb_eq. intuition congruence.
Qed.

Lemma add_point_keys (objs : list (Z * ObjectRecord)) (obj_id : Z) (p : point) :
  (add_point objs obj_id p).*1 = objs.*1.
Proof.
  induction objs as [|[k o] objs IH]; simpl; [done|].
  destruct (k =? obj_id); [done|]. by rewrite !fmap_cons, IH.
Qed.

Lemma start_object_inv (st : ScanState) (ls : string) :
  scan_inv st -> scan_inv (start_object st ls).
Proof.
  intros [Hnd Hcur]. unfold start_object.
  destruct (_ && _); [|done].
  destruct (parse_obj_id ls) as [obj_id|]; [|done]. simpl.
  destruct (has_id (objects st) obj_id) eqn:Hid.
  - split; [done|]. simpl. intros ? [= <-]. by apply has_id_elem_of.
  - assert (Hnot : obj_id ∉ (objects st).*1).
    { rewrite <- has_id_elem_of. congruence. }
    split; simpl; rewrite fmap_app; simpl.
    + apply NoDup_app. split_and!; [done| |apply NoDup_singleton].
      intros k Hk ->%list_elem_of_singleton. done.
    + intros ? [= <-]. apply elem_of_app. right. by left.
Qed.

Lemma collect_move_inv (st : ScanState) (ls : string) :
  scan_inv st -> scan_inv (collect_move st ls).
Proof.
  intros Hinv. unfold collect_move.
  destruct (current_object_id st) as [obj_id|] eqn:Hid; [|done].
  destruct (_ && _); [|done].
  destruct (extract_xy ls) as [[x|] [y|]]; try done.
  destruct Hinv as [Hnd Hcur].
  split; simpl; rewrite add_point_keys; [done|].
  intros k Hk. apply Hcur. congruence.
Qed.

Lemma scan_line_inv (st : ScanState) (line : string) :
  scan_inv st -> scan_inv (scan_line st line).
Proof.
  intros Hinv. unfold scan_line.
  set (st1 := {| objects := objects st; output_lines := _;
                 current_object_id := _; in_support := _;
                 insert_position := _ |}).
  assert (H1 : scan_inv st1) by done.
  destruct (PyStr.startswith _ "; printing object"); [by apply start_object_inv|].
  destruct (PyStr.startswith _ "; stop printing object").
  { destruct H1 as [Hnd _]. by split. }
  destruct (_ || _); [done|].
  apply collect_move_inv. by destruct (_ && _).
Qed.

Lemma scan_current_known (lines : list string) : scan_inv (scan lines).
Proof.
  unfold scan.
  assert (H0' : scan_inv initial_state).
  { split; [apply NoDup_nil_2|done]. }
  revert H0'. generalize initial_state.
  induction lines as [|line lines IH]; intros st Hst; simpl; [done|].
  by apply IH, scan_line_inv.
Qed.

(** *** Which objects are emitted *)

Lemma simplify_polygon_result (poly : polygon) (max_points : nat) :
  exists k, simplify_polygon (GPolygon poly) max_points
            = GPolygon (simplify poly (tolerance_at k)).
Proof.
  destruct (simplify_while_from poly max_points 20 0 simplify_fuel)
    as (k & _ & Hrun & _);
    [lia | unfold simplify_fuel; lia | intros j Hj; lia |].
  change (tolerance_at 0) with 0.1%float in Hrun.
  exists k. unfold simplify_polygon. cbv zeta. by rewrite Hrun.
Qed.

Lemma max_area_go_elem_of (best : polygon) (rest : list polygon) :
  max_area_go best rest ∈ best :: rest.
Proof.
  revert best. induction rest as [|p rest IH]; intros best; simpl; [by left|].
  destruct (area best <? area p)%float.
  - right. apply IH.
  - specialize (IH best). apply elem_of_cons in IH as [->|IH]; [by left|].
    right. by right.
Qed.

Lemma finalize_None_usable (name : string) (c : nat) (points : list point) :
  simplify_nonempty ->
  (length points <? 3)%nat = false ->
  finalize name c points = None <-> usable (concave_hull points 0.5) = false.
Proof.
  intros Hsimp Hlen. unfold finalize. rewrite Hlen.
  destruct (concave_hull points 0.5) as [p|geoms|e]; cbn [is_empty usable].
  - destruct (polygon_is_empty p) eqn:Hp; [done|]. cbn [negb].
    destruct (simplify_polygon_result p 40) as [k ->].
    specialize (Hsimp p (tolerance_at k) Hp). unfold polygon_is_empty in Hsimp.
    by destruct (exterior_coords _).
  - by destruct (forallb _ _).
  - by destruct e.
Qed.

Lemma usable_concave_hull (points : list point) :
  alphashape_nonempty ->
  usable (concave_hull points 0.5) = concave_ok points || convex_ok points.
Proof.
  intros Halpha. unfold concave_hull, concave_ok, convex_ok.
  assert (Hconv : usable (convex_hull points)
                  = match convex_hull points with
                    | GPolygon p => negb (polygon_is_empty p)
                    | _ => false
                    end) by done.
  destruct (length points <? 4)%nat eqn:Hlen.
  - by rewrite (proj2 (Nat.leb_gt _ _) (proj1 (Nat.ltb_lt _ _) Hlen)).
  - rewrite (proj2 (Nat.leb_le _ _) (proj1 (Nat.ltb_ge _ _) Hlen)). simpl.
    destruct (alphashape points 0.5) as [[p|[|q geoms]|e]|] eqn:Ha; simpl; try done.
    + by rewrite (Halpha _ _ _ Ha).
    + specialize (Halpha _ _ _ Ha). simpl in Halpha.
      rewrite Forall_forall in Halpha.
      by rewrite (Halpha _ (max_area_go_elem_of q geoms)).
Qed.

Lemma finalize_None_iff (name : string) (c : nat) (points : list point) :
  alphashape_nonempty -> simplify_nonempty ->
  finalize name c points = None
  <-> (length points < 3)%nat
      \/ (concave_ok points = false /\ convex_ok points = false).
Proof.
  intros Halpha Hsimp.
  destruct (length points <? 3)%nat eqn:Hlen.
  - apply Nat.ltb_lt in Hlen. split; [by left|]. intros _.
    unfold finalize. by rewrite (proj2 (Nat.ltb_lt _ _) Hlen).
  - rewrite finalize_None_usable, usable_concave_hull, orb_false_iff by done.
    apply Nat.ltb_ge in Hlen. split; [by right|]. intros [?|?]; [lia|done].
Qed.

(** C4. Under the contracts of the two packages (alphashape returns no
    empty polygon, simplification does not empty a polygon): the ids of
    the mapping are distinct and there are at most as many commands as
    ids; every object is processed and contributes its own outcome, so a
    skipped object stops nothing; and an object is skipped exactly when it
    has fewer than 3 distinct points or neither the alpha shape nor the
    convex hull gives a polygon. *)
Theorem skipped_iff_few_points_or_no_hull (lines : list string) :
  alphashape_nonempty -> simplify_nonempty ->
  let objs := objects (scan lines) in
  NoDup objs.*1
  /\ (length (define_commands objs) <= length objs)%nat
  /\ define_commands objs = omap (object_outcome objs) (seq 0 (length objs))
  /\ forall i item,
       objs !! i = Some item ->
       object_outcome objs i = None
       <-> (length (obj_points item.2) < 3)%nat
           \/ (concave_ok (obj_points item.2) = false
               /\ convex_ok (obj_points item.2) = false).
Proof.
  intros Halpha Hsimp objs. split_and!.
  - apply (scan_current_known lines).
  - rewrite define_commands_outcomes.
    etrans; [apply length_omap_le|]. by rewrite length_seq.
  - apply define_commands_outcomes.
  - intros i item Hi. unfold object_outcome. rewrite Hi. simpl.
    by apply finalize_None_iff.
Qed.

(** *** Region-type markers *)

(** A line with a support marker, in any letter case, that is not an
    object marker sets the support flag and keeps the active id. *)
Lemma support_marker_sets_flag (st : ScanState) (line : string) :
  let ls := PyStr.strip line in
  PyStr.startswith ls "; printing object" = false ->
  PyStr.startswith ls "; stop printing object" = false ->
  PyStr.contains (PyStr.lower ls) ";type:support" = true ->
  in_support (scan_line st line) = true
  /\ current_object_id (scan_line st line) = current_object_id st
  /\ objects (scan_line st line) = objects st.
Proof.
  intros ls H1 H2 H3. subst ls. unfold scan_line.
  by rewrite H1, H2, H3, orb_true_r.
Qed.

(** A line with the marker [;TYPE:] in upper case, other than a support
    marker, clears the support flag and keeps the active id. *)
Lemma upper_type_marker_clears_flag (st : ScanState) (line : string) :
  let ls := PyStr.strip line in
  PyStr.startswith ls "; printing object" = false ->
  PyStr.startswith ls "; stop printing object" = false ->
  PyStr.contains (PyStr.lower ls) ";type:support" = false ->
  PyStr.contains ls ";TYPE:Support" = false ->
  PyStr.contains ls ";TYPE:" = true ->
  in_support (scan_line st line) = false
  /\ current_object_id (scan_line st line) = current_object_id st.
Proof.
  intros ls H1 H2 H3 H4 H5. subst ls. unfold scan_line.
  rewrite H1, H2, H3, H4, H5. simpl. unfold collect_move. simpl.
  by repeat case_match.
Qed.

Lemma prefix_app_l (a b s : string) :
  String.prefix (a ++ b)%string s = true -> String.prefix a s = true.
Proof.
  revert s. induction a as [|c a IH]; intros s; simpl; [by destruct s|].
  destruct s as [|c' s]; [done|]. simpl.
  destruct (ascii_dec c c'); [apply IH|done].
Qed.

Lemma find_from_app_l (s a b : string) (i : Z) :
  0 <= i ->
  0 <= PyStr.find_from s (a ++ b)%string i -> 0 <= PyStr.find_from s a i.
Proof.
  revert i. induction s as [|c s IH]; intros i Hi; cbn [PyStr.find_from].
  - destruct a as [|ca a]; simpl; [destruct b; simpl|]; lia.
  - destruct (String.prefix (a ++ b)%string (String c s)) eqn:P.
    + by rewrite (prefix_app_l _ _ _ P).
    + destruct (String.prefix a (String c s)); [lia|]. apply IH. lia.
Qed.

Lemma contains_app_l (s a b : string) :
  PyStr.contains s (a ++ b)%string = true -> PyStr.contains s a = true.
Proof.
  unfold PyStr.contains, PyStr.find. rewrite !Z.leb_le.
  by apply find_from_app_l.
Qed.

(** A type marker written in lower case, other than a support marker,
    leaves the support flag as it is. *)
Lemma lower_type_marker_keeps_flag (st : ScanState) (line : string) :
  let ls := PyStr.strip line in
  PyStr.startswith ls "; printing object" = false ->
  PyStr.startswith ls "; stop printing object" = false ->
  PyStr.contains (PyStr.lower ls) ";type:support" = false ->
  PyStr.contains ls ";TYPE:" = false ->
  in_support (scan_line st line) = in_support st.
Proof.
  intros ls H1 H2 H3 H5. subst ls. unfold scan_line.
  assert (H4 : PyStr.contains (PyStr.strip line) ";TYPE:Support" = false).
  { destruct (PyStr.contains (PyStr.strip line) ";TYPE:Support") eqn:E; [|done].
    apply (contains_app_l _ ";TYPE:" "Support") in E. congruence. }
  rewrite H1, H2, H3, H4, H5. simpl. unfold collect_move.
  by repeat case_match.
Qed.

End Properties.

(** ** Properties of the scan *)

Section ScanProperties.
Context `{!Builtins, !Shapely}.

(** *** Strings that start with a given text *)

Lemma prefix_split (p s : string) :
  String.prefix p s = true -> exists r, s = (p ++ r)%string.
Proof.
  revert s. induction p as [|c p IH]; intros s; simpl.
  - intros _. by exists s.
  - destruct s as [|c' s]; [done|]. simpl.
    destruct (ascii_dec c c') as [<-|]; [|done].
    intros [r ->]%IH. exists r. reflexivity.
Qed.

Lemma find_from_ge (s sub : string) (i : Z) :
  0 <= PyStr.find_from s sub i -> i <= PyStr.find_from s sub i.
Proof.
  revert i. induction s as [|c s IH]; intros i; cbn [PyStr.find_from].
  - destruct (String.prefix sub EmptyString); lia.
  - destruct (String.prefix sub (String c s)); [lia|].
    intros Hi. specialize (IH _ Hi). lia.
Qed.

Lemma split_on_go_find (s sep cur : string) (i : Z) (a b : string) (l : list string) :
  0 <= i ->
  PyStr.split_on_go s sep 0 cur = a :: b :: l ->
  0 <= PyStr.find_from s sep i.
Proof.
  revert cur i. induction s as [|c s IH]; intros cur i Hi; [done|].
  cbn [PyStr.split_on_go PyStr.find_from].
  destruct (String.prefix sep (String c s)); [lia|].
  intros Hsplit. apply (IH _ (i + 1)) in Hsplit; lia.
Qed.

Lemma parse_obj_id_find (ls : string) (obj_id : Z) :
  parse_obj_id ls = Some obj_id -> 0 <= PyStr.find ls "id:".
Proof.
  unfold parse_obj_id, PyStr.split_on, PyStr.find.
  destruct (PyStr.split_on_go ls "id:" 0 EmptyString) as [|a [|b l]] eqn:E;
    [done..|].
  intros _. by eapply split_on_go_find.
Qed.

Lemma start_prefix_find_object (ls : string) :
  PyStr.startswith ls "; printing object" = true ->
  PyStr.find ls "object" = 11.
Proof. intros [r ->]%prefix_split. destruct r; reflexivity. Qed.

Lemma start_prefix_find_id (ls : string) :
  PyStr.startswith ls "; printing object" = true ->
  0 <= PyStr.find ls "id:" -> 0 < PyStr.find ls "id:".
Proof.
  intros [r ->]%prefix_split.
  change (PyStr.find ("; printing object" ++ r) "id:")
    with (PyStr.find_from r "id:" 17).
  intros Hi%find_from_ge. lia.
Qed.

Lemma start_prefix_not_stop (ls : string) :
  PyStr.startswith ls "; stop printing object" = true ->
  PyStr.startswith ls "; printing object" = false.
Proof. intros [r ->]%prefix_split. reflexivity. Qed.

(** What the start branch does, with its two guards resolved. *)
Lemma start_object_spec (st : ScanState) (ls : string) :
  PyStr.startswith ls "; printing object" = true ->
  start_object st ls
  = match parse_obj_id ls with
    | None => set_support st false
    | Some obj_id =>
        let st1 := set_current (set_support st false) (Some obj_id) in
        if has_id (objects st) obj_id then st1
        else set_objects st1
               (objects st
                ++ [(obj_id,
                     {| obj_name := PyStr.strip
                                      (PyStr.slice ls 18 (PyStr.find ls "id:"));
                        obj_points := [] |})])
    end.
Proof.
  intros Hstart. unfold start_object.
  rewrite (start_prefix_find_object ls Hstart).
  destruct (parse_obj_id ls) as [obj_id|] eqn:Hid.
  - pose proof (start_prefix_find_id ls Hstart (parse_obj_id_find ls _ Hid)) as Hpos.
    replace (0 <? PyStr.find ls "id:") with true by lia. done.
  - by destruct (_ && _).
Qed.

(** *** One line of the scan *)

(** What a line can do to the mapping: nothing, add the record of a new
    object, or add one point to the record of the active object. *)
Lemma scan_line_cases (st : ScanState) (line : string) :
  let st' := scan_line st line in
  objects st' = objects st
  \/ (exists m,
        marker_of line = Some m
        /\ has_id (objects st) m.1 = false
        /\ current_object_id st' = Some m.1
        /\ objects st'
           = objects st ++ [(m.1, {| obj_name := m.2; obj_points := [] |})])
  \/ (exists obj_id p,
        current_object_id st = Some obj_id
        /\ current_object_id st' = Some obj_id
        /\ in_support st' = false
        /\ move_gives line p
        /\ objects st' = add_point (objects st) obj_id p).
Proof.
  intros st'. subst st'. unfold scan_line, marker_of.
  destruct (PyStr.startswith (PyStr.strip line) "; printing object") eqn:Hstart.
  { rewrite start_object_spec by done.
    destruct (parse_obj_id (PyStr.strip line)) as [obj_id|]; [|by left].
    cbv zeta.
    cbn [objects set_current set_support set_objects current_object_id in_support].
    destruct (has_id (objects st) obj_id) eqn:Hid; [by left|].
    right. left. eexists (_, _).
    split_and!; [reflexivity|exact Hid|reflexivity|reflexivity]. }
  destruct (PyStr.startswith _ "; stop printing object"); [by left|].
  destruct (_ || _); [by left|].
  set (st2 := if _ && _ then _ else _).
  assert (Hobj : objects st2 = objects st) by (subst st2; by destruct (_ && _)).
  assert (Hcur : current_object_id st2 = current_object_id st)
    by (subst st2; by destruct (_ && _)).
  unfold collect_move.
  destruct (current_object_id st2) as [obj_id|] eqn:Hid; [|by left].
  destruct (in_support st2) eqn:Hsup; [by left|]. cbn [negb andb].
  destruct (_ || _) eqn:Hmove; [|by left].
  destruct (extract_xy (PyStr.strip line)) as [[x|] [y|]] eqn:Hxy; try by left.
  right. right. exists obj_id, (py_round x 2, py_round y 2).
  cbn. rewrite Hobj, <- Hcur. split_and!; try done.
  split; [by apply orb_true_iff|]. by exists x, y.
Qed.

Lemma start_line_effect (st : ScanState) (line : string) (obj_id : Z) :
  let ls := PyStr.strip line in
  PyStr.startswith ls "; printing object" = true ->
  parse_obj_id ls = Some obj_id ->
  current_object_id (scan_line st line) = Some obj_id
  /\ in_support (scan_line st line) = false
  /\ objects (scan_line st line)
     = if has_id (objects st) obj_id then objects st
       else objects st
            ++ [(obj_id,
                 {| obj_name := PyStr.strip (PyStr.slice ls 18 (PyStr.find ls "id:"));
                    obj_points := [] |})].
Proof.
  intros ls Hstart Hid. subst ls. unfold scan_line.
  rewrite Hstart, start_object_spec, Hid by done. cbv zeta.
  cbn [objects set_current set_support set_objects current_object_id in_support].
  by destruct (has_id (objects st) obj_id).
Qed.

Lemma marker_of_Some (line : string) (m : Z * string) :
  marker_of line = Some m ->
  PyStr.startswith (PyStr.strip line) "; printing object" = true
  /\ parse_obj_id (PyStr.strip line) = Some m.1.
Proof.
  unfold marker_of. destruct (PyStr.startswith _ _); [|done].
  destruct (parse_obj_id _); [|done]. by intros [= <-].
Qed.

(** X7. A line that starts an object and carries an id that [int] accepts
    always activates that id and clears the support flag: the two guards on
    the positions of "object" and "id:" cannot fail for it. The record of a
    known id is kept as it is; a new id gets a record with the stripped text
    between index 18 and "id:" as name, and no points. *)
Theorem start_marker_activates_id (st : ScanState) (line : string) (obj_id : Z) :
  let ls := PyStr.strip line in
  PyStr.startswith ls "; printing object" = true ->
  parse_obj_id ls = Some obj_id ->
  current_object_id (scan_line st line) = Some obj_id
  /\ in_support (scan_line st line) = false
  /\ objects (scan_line st line)
     = if has_id (objects st) obj_id then objects st
       else objects st
            ++ [(obj_id,
                 {| obj_name := PyStr.strip (PyStr.slice ls 18 (PyStr.find ls "id:"));
                    obj_points := [] |})].
Proof. apply start_line_effect. Qed.

(** X5. A line that stops an object is never taken for a line that starts
    one; it leaves no object active and changes neither the mapping nor the
    support flag. *)
Theorem stop_marker_deactivates (st : ScanState) (line : string) :
  PyStr.startswith (PyStr.strip line) "; stop printing object" = true ->
  marker_of line = None
  /\ current_object_id (scan_line st line) = None
  /\ objects (scan_line st line) = objects st
  /\ in_support (scan_line st line) = in_support st.
Proof.
  intros Hstop. unfold scan_line, marker_of.
  by rewrite (start_prefix_not_stop _ Hstop), Hstop.
Qed.

(** X6. A line after which no object is active, or after which the support
    flag is set, has added nothing to the mapping. *)
Theorem idle_or_support_collects_nothing (st : ScanState) (line : string) :
  current_object_id (scan_line st line) = None
  \/ in_support (scan_line st line) = true ->
  objects (scan_line st line) = objects st.
Proof.
  intros Hidle.
  destruct (scan_line_cases st line) as [Hsame|[Hnew|Hmove]]; [done|..].
  - destruct Hnew as (m & Hm & _ & Hcur & _).
    destruct Hidle as [Hnone|Hsup]; [congruence|].
    apply marker_of_Some in Hm as [Hstart Hid].
    destruct (start_line_effect st line _ Hstart Hid) as (_ & Hclear & _).
    congruence.
  - destruct Hmove as (obj_id & p & _ & Hcur & Hsup & _).
    destruct Hidle; congruence.
Qed.

(** *** Looking up and updating the mapping *)

Lemma ids_names_keys (objs : list (Z * ObjectRecord)) :
  (ids_names objs).*1 = objs.*1.
Proof.
  unfold ids_names. induction objs as [|[k o] objs IH]; [done|].
  simpl. f_equal. apply IH.
Qed.

Lemma ids_names_add_point (objs : list (Z * ObjectRecord)) (obj_id : Z) (p : point) :
  ids_names (add_point objs obj_id p) = ids_names objs.
Proof.
  unfold ids_names. induction objs as [|[k o] objs IH]; [done|]. simpl.
  destruct (k =? obj_id); [done|]. simpl. f_equal. apply IH.
Qed.

Lemma get_object_is_Some (objs : list (Z * ObjectRecord)) (obj_id : Z) :
  is_Some (get_object objs obj_id) <-> obj_id ∈ objs.*1.
Proof.
  induction objs as [|[k o] objs IH]; simpl.
  - split; [by intros [? ?]|by intros ?%elem_of_nil].
  - rewrite elem_of_cons. destruct (Z.eqb_spec k obj_id) as [->|Hne].
    + split; [by left|by eexists].
    + rewrite IH. split; [by right|]. by intros [?|?].
Qed.

Lemma get_object_snoc (objs : list (Z * ObjectRecord)) (obj_id k : Z)
    (r : ObjectRecord) :
  get_object (objs ++ [(obj_id, r)]) k
  = match get_object objs k with
    | Some o => Some o
    | None => if obj_id =? k then Some r else None
    end.
Proof.
  induction objs as [|[k' o] objs IH]; simpl; [done|].
  by destruct (k' =? k).
Qed.

Lemma get_object_add_point (objs : list (Z * ObjectRecord)) (obj_id k : Z)
    (p : point) :
  get_object (add_point objs obj_id p) k
  = if k =? obj_id
    then (fun o => {| obj_name := obj_name o;
                      obj_points := set_add p (obj_points o) |})
           <$> get_object objs k
    else get_object objs k.
Proof.
  induction objs as [|[k' o] objs IH]; simpl; [by destruct (k =? obj_id)|].
  destruct (Z.eqb_spec k' obj_id) as [->|Hne]; simpl.
  - destruct (Z.eqb_spec obj_id k) as [->|Hk].
    + by rewrite Z.eqb_refl.
    + by replace (k =? obj_id) with false by lia.
  - destruct (Z.eqb_spec k' k) as [->|Hk]; [|done].
    by replace (k =? obj_id) with false by lia.
Qed.

Lemma set_add_subseteq (p : point) (points : list point) :
  points ⊆ set_add p points.
Proof.
  unfold set_add. destruct (existsb _ _); [done|].
  intros q Hq. apply elem_of_app. by left.
Qed.

(** *** The objects of a stream *)

Lemma ids_names_scan_line (st : ScanState) (line : string) :
  ids_names (objects (scan_line st line))
  = match marker_of line with
    | Some m => first_marker (ids_names (objects st)) m
    | None => ids_names (objects st)
    end.
Proof.
  destruct (marker_of line) as [m|] eqn:Hm.
  - pose proof Hm as [Hstart Hid]%marker_of_Some.
    destruct (start_line_effect st line _ Hstart Hid) as (_ & _ & ->).
    unfold first_marker. rewrite ids_names_keys.
    assert (Hname : m.2 = PyStr.strip (PyStr.slice (PyStr.strip line) 18
                                         (PyStr.find (PyStr.strip line) "id:"))).
    { revert Hm. unfold marker_of. rewrite Hstart.
      destruct (parse_obj_id _); [|done]. by intros [= <-]. }
    destruct (has_id (objects st) m.1) eqn:Hhas.
    + apply has_id_elem_of in Hhas. by rewrite decide_True.
    + rewrite decide_False.
      * unfold ids_names. rewrite map_app. simpl. rewrite <- Hname.
        by destruct m.
      * rewrite <- has_id_elem_of. congruence.
  - destruct (scan_line_cases st line) as [->|[Hnew|Hmove]]; [done|..].
    + destruct Hnew as (m & Hm' & _). congruence.
    + destruct Hmove as (obj_id & p & _ & _ & _ & _ & ->).
      apply ids_names_add_point.
Qed.

Lemma ids_names_fold (lines : list string) (st : ScanState) :
  ids_names (objects (fold_left scan_line lines st))
  = fold_left first_marker (omap marker_of lines) (ids_names (objects st)).
Proof.
  revert st. induction lines as [|line lines IH]; intros st; [done|].
  cbn [fold_left omap list_omap]. rewrite IH, ids_names_scan_line.
  by destruct (marker_of line).
Qed.

(** X1. The ids of the mapping, with their names and in their order, are
    those of the lines that announce an object, each id kept with the name
    of its first announcement: no other line creates, renames, reorders or
    removes an object. *)
Theorem objects_follow_start_markers (lines : list string) :
  ids_names (objects (scan lines))
  = fold_left first_marker (omap marker_of lines) [].
Proof. unfold scan. by rewrite ids_names_fold. Qed.

(** X2. After every stream the ids of the mapping are distinct and the
    active id, when there is one, has a record: the lookup
    [objects[current_object_id]] of the move branch cannot miss. *)
Theorem active_object_has_record (lines : list string) :
  NoDup (objects (scan lines)).*1
  /\ match current_object_id (scan lines) with
     | Some obj_id => is_Some (get_object (objects (scan lines)) obj_id)
     | None => True
     end.
Proof.
  destruct (scan_current_known lines) as [Hnd Hcur]. split; [done|].
  destruct (current_object_id (scan lines)) as [obj_id|]; [|done].
  apply get_object_is_Some. by apply Hcur.
Qed.

(** X9. A line changes no record but that of the object active after it:
    the lookup of every other id gives what it gave before. *)
Theorem inactive_objects_untouched (st : ScanState) (line : string) (k : Z) :
  current_object_id (scan_line st line) <> Some k ->
  get_object (objects (scan_line st line)) k = get_object (objects st) k.
Proof.
  intros Hk.
  destruct (scan_line_cases st line) as [->|[Hnew|Hmove]]; [done|..].
  - destruct Hnew as (m & _ & Hhas & Hcur & ->).
    rewrite get_object_snoc.
    destruct (get_object (objects st) k); [done|].
    destruct (Z.eqb_spec m.1 k) as [<-|]; [congruence|done].
  - destruct Hmove as (obj_id & p & _ & Hcur & _ & _ & ->).
    rewrite get_object_add_point.
    destruct (Z.eqb_spec k obj_id) as [->|]; [congruence|done].
Qed.

Lemma record_persists_line (st : ScanState) (line : string) (k : Z)
    (o : ObjectRecord) :
  get_object (objects st) k = Some o ->
  exists o',
    get_object (objects (scan_line st line)) k = Some o'
    /\ obj_name o' = obj_name o
    /\ obj_points o ⊆ obj_points o'.
Proof.
  intros Ho.
  destruct (scan_line_cases st line) as [->|[Hnew|Hmove]]; [by exists o|..].
  - destruct Hnew as (m & _ & _ & _ & ->).
    exists o. by rewrite get_object_snoc, Ho.
  - destruct Hmove as (obj_id & p & _ & _ & _ & _ & ->).
    rewrite get_object_add_point, Ho.
    destruct (k =? obj_id); [|by exists o].
    eexists. split; [done|]. split; [done|]. apply set_add_subseteq.
Qed.

(** X8. A record, once in the mapping, stays for the rest of the stream
    with the name it has, and every point stored in it stays stored: nothing
    is renamed or removed. *)
Theorem records_persist (lines more : list string) (k : Z) (o : ObjectRecord) :
  get_object (objects (scan lines)) k = Some o ->
  exists o',
    get_object (objects (scan (lines ++ more))) k = Some o'
    /\ obj_name o' = obj_name o
    /\ obj_points o ⊆ obj_points o'.
Proof.
  unfold scan. rewrite fold_left_app.
  generalize (fold_left scan_line lines initial_state). intros st.
  revert st o. induction more as [|line more IH]; intros st o Ho; simpl.
  - by exists o.
  - destruct (record_persists_line st line k o Ho) as (o1 & Ho1 & Hn1 & Hp1).
    destruct (IH _ _ Ho1) as (o2 & Ho2 & Hn2 & Hp2).
    exists o2. split; [done|]. split; [congruence|by etrans].
Qed.

(** *** The points of an object *)

Lemma existsb_false_In {A} (f : A -> bool) (l : list A) (x : A) :
  existsb f l = false -> x ∈ l -> f x = false.
Proof.
  intros Hex Hx. destruct (f x) eqn:Hfx; [|done].
  assert (existsb f l = true); [|congruence].
  apply existsb_exists. exists x. split; [|done]. by apply list_elem_of_In.
Qed.

Lemma set_add_distinct (p : point) (points : list point) :
  distinct_points points -> distinct_points (set_add p points).
Proof.
  intros Hd. unfold set_add.
  destruct (existsb (point_eqb p) points) eqn:Hex; [done|].
  intros i j a b Hij Hi Hj.
  destruct (decide (j < length points)%nat) as [Hlt|Hge].
  - rewrite lookup_app_l in Hi, Hj by lia. exact (Hd i j a b Hij Hi Hj).
  - rewrite lookup_app_r in Hj by lia.
    destruct (j - length points)%nat eqn:Hjl; [|by destruct n].
    injection Hj as <-.
    assert (Hi' : (i < length points)%nat) by lia.
    rewrite lookup_app_l in Hi by done.
    eapply existsb_false_In; [done|]. by eapply list_elem_of_lookup_2.
Qed.

Lemma add_point_Forall (R : list point -> Prop)
    (objs : list (Z * ObjectRecord)) (obj_id : Z) (p : point) :
  (forall points, R points -> R (set_add p points)) ->
  Forall (fun ko => R (obj_points ko.2)) objs ->
  Forall (fun ko => R (obj_points ko.2)) (add_point objs obj_id p).
Proof.
  intros HR. induction 1 as [|[k o] objs Ho Hobjs IH]; simpl; [done|].
  destruct (k =? obj_id); constructor; try done.
  simpl. by apply HR.
Qed.

Lemma scan_snoc (lines : list string) (line : string) :
  scan (lines ++ [line]) = scan_line (scan lines) line.
Proof. unfold scan. by rewrite fold_left_app. Qed.

(** X3. In every record of the mapping no point equals, by [==] on both
    coordinates, a point stored before it: a move to coordinates already
    stored for the object adds nothing. *)
Theorem stored_points_distinct (lines : list string) :
  Forall (fun ko => distinct_points (obj_points ko.2)) (objects (scan lines)).
Proof.
  induction lines as [|line lines IH] using rev_ind; [by constructor|].
  rewrite scan_snoc.
  destruct (scan_line_cases (scan lines) line) as [->|[Hnew|Hmove]]; [done|..].
  - destruct Hnew as (m & _ & _ & _ & ->).
    apply Forall_app. split; [done|]. constructor; [|done].
    intros i j a b _ Hi. by destruct i.
  - destruct Hmove as (obj_id & p & _ & _ & _ & _ & ->).
    apply add_point_Forall; [|done]. apply set_add_distinct.
Qed.

(** X4. Every point of every record is the pair of rounded coordinates of
    a line of the stream that is a move (it starts with G1 or G0) and whose
    X and Y both parse: points come from nowhere else. *)
Theorem points_come_from_moves (lines : list string) :
  Forall (fun ko =>
            Forall (fun p => exists line, line ∈ lines /\ move_gives line p)
              (obj_points ko.2))
    (objects (scan lines)).
Proof.
  induction lines as [|line lines IH] using rev_ind; [by constructor|].
  rewrite scan_snoc.
  assert (IH' : Forall (fun ko =>
                  Forall (fun p => exists l, l ∈ lines ++ [line] /\ move_gives l p)
                    (obj_points ko.2)) (objects (scan lines))).
  { eapply Forall_impl; [exact IH|]. intros ko Hko.
    eapply Forall_impl; [exact Hko|]. intros p (l & Hl & Hp).
    exists l. split; [|done]. apply elem_of_app. by left. }
  destruct (scan_line_cases (scan lines) line) as [->|[Hnew|Hmove]]; [done|..].
  - destruct Hnew as (m & _ & _ & _ & ->).
    apply Forall_app. split; [done|]. by repeat constructor.
  - destruct Hmove as (obj_id & p & _ & _ & _ & Hp & ->).
    apply (add_point_Forall
             (Forall (fun p => exists l, l ∈ lines ++ [line] /\ move_gives l p)));
      [|done].
    intros points Hpoints. unfold set_add.
    destruct (existsb _ _); [done|].
    apply Forall_app. split; [done|]. constructor; [|done].
    exists line. split; [|done]. apply elem_of_app. right. by left.
Qed.

(** *** A move while an object is printing *)

Lemma prefix_lower (p s : string) :
  String.prefix p s = true ->
  String.prefix (PyStr.lower p) (PyStr.lower s) = true.
Proof.
  revert s. induction p as [|c p IH]; intros s.
  - intros _. destruct s; reflexivity.
  - destruct s as [|c' s]; [done|]. simpl.
    destruct (ascii_dec c c') as [->|]; [|done]. intros Hp.
    destruct (ascii_dec (PyStr.lower_char c') (PyStr.lower_char c')) as [_|Hne];
      [by apply IH|by destruct Hne].
Qed.

Lemma find_from_lower (s sub : string) (i : Z) :
  0 <= i ->
  0 <= PyStr.find_from s sub i ->
  0 <= PyStr.find_from (PyStr.lower s) (PyStr.lower sub) i.
Proof.
  revert i. induction s as [|c s IH]; intros i Hi;
    cbn [PyStr.lower]; cbn [PyStr.find_from].
  - destruct (String.prefix sub EmptyString) eqn:P; [|lia].
    apply prefix_lower in P. cbn [PyStr.lower] in P. rewrite P. lia.
  - destruct (String.prefix sub (String c s)) eqn:P.
    + apply prefix_lower in P. cbn [PyStr.lower] in P. rewrite P. lia.
    + intros Hs. destruct (String.prefix _ (String _ (PyStr.lower s))); [lia|].
      apply IH; [lia|done].
Qed.

Lemma contains_lower (s sub : string) :
  PyStr.contains s sub = true ->
  PyStr.contains (PyStr.lower s) (PyStr.lower sub) = true.
Proof.
  unfold PyStr.contains, PyStr.find. rewrite !Z.leb_le.
  by apply find_from_lower.
Qed.

Lemma move_prefix_not_marker (ls : string) :
  PyStr.startswith ls "G1" = true \/ PyStr.startswith ls "G0" = true ->
  PyStr.startswith ls "; printing object" = false
  /\ PyStr.startswith ls "; stop printing object" = false.
Proof. intros [[r ->]%prefix_split|[r ->]%prefix_split]; by split. Qed.

(** X13. While an object is printing (it is active and the support flag is
    clear), a move whose X and Y parse, on a line without a support marker,
    is stored: the rounded pair is added to the points of the active object
    (unless an equal pair is there already), and the active id and the flag
    stay as they are. *)
Theorem move_while_printing_is_stored (st : ScanState) (line : string)
    (obj_id : Z) (o : ObjectRecord) (x y : float) :
  let ls := PyStr.strip line in
  current_object_id st = Some obj_id ->
  in_support st = false ->
  get_object (objects st) obj_id = Some o ->
  PyStr.startswith ls "G1" = true \/ PyStr.startswith ls "G0" = true ->
  PyStr.contains (PyStr.lower ls) ";type:support" = false ->
  extract_xy ls = (Some x, Some y) ->
  get_object (objects (scan_line st line)) obj_id
  = Some {| obj_name := obj_name o;
            obj_points := set_add (py_round x 2, py_round y 2) (obj_points o) |}
  /\ current_object_id (scan_line st line) = Some obj_id
  /\ in_support (scan_line st line) = false.
Proof.
  intros ls Hcur Hsup Ho Hmove Hnosup Hxy. subst ls.
  destruct (move_prefix_not_marker _ Hmove) as [Hstart Hstop].
  assert (Hup : PyStr.contains (PyStr.strip line) ";TYPE:Support" = false).
  { destruct (PyStr.contains (PyStr.strip line) ";TYPE:Support") eqn:E; [|done].
    apply contains_lower in E. cbn [PyStr.lower] in E.
    change (String (PyStr.lower_char ";") _) with ";type:support" in E.
    congruence. }
  assert (Hor : PyStr.startswith (PyStr.strip line) "G1"
                || PyStr.startswith (PyStr.strip line) "G0" = true).
  { apply orb_true_iff. exact Hmove. }
  unfold scan_line. rewrite Hstart, Hstop, Hup, Hnosup. cbn [orb negb andb].
  rewrite andb_true_r.
  assert (Hst2 : forall st2,
             current_object_id st2 = Some obj_id -> in_support st2 = false ->
             objects st2 = objects st ->
             get_object (objects (collect_move st2 (PyStr.strip line))) obj_id
             = Some {| obj_name := obj_name o;
                       obj_points := set_add (py_round x 2, py_round y 2)
                                       (obj_points o) |}
             /\ current_object_id (collect_move st2 (PyStr.strip line)) = Some obj_id
             /\ in_support (collect_move st2 (PyStr.strip line)) = false).
  { intros st2 H1 H2 H3. unfold collect_move.
    rewrite H1, H2, Hor, Hxy. cbn [negb andb].
    cbn [objects set_objects current_object_id in_support].
    rewrite H3, get_object_add_point, Z.eqb_refl, Ho. done. }
  destruct (PyStr.contains (PyStr.strip line) ";TYPE:"); by apply Hst2.
Qed.

(** *** Streams without objects *)

Lemma omap_all_None {A B} (f : A -> option B) (l : list A) :
  Forall (fun x => f x = None) l -> omap f l = [].
Proof.
  induction 1 as [|x l Hx _ IH]; [done|]. cbn [omap list_omap]. by rewrite Hx.
Qed.

(** X12. A stream in which no line announces an object is written back
    as it was read: the mapping stays empty and nothing is inserted, not
    even the marker line. *)
Theorem stream_without_objects_unchanged (lines : list string) :
  Forall (fun line => marker_of line = None) lines ->
  objects (scan lines) = [] /\ main lines = lines.
Proof.
  intros Hnone.
  assert (Hobjs : objects (scan lines) = []).
  { pose proof (ids_names_fold lines initial_state) as Hids.
    rewrite (omap_all_None _ _ Hnone) in Hids. simpl in Hids.
    fold (scan lines) in Hids. unfold ids_names in Hids.
    by destruct (objects (scan lines)). }
  split; [done|]. unfold main. by rewrite Hobjs, scan_output.
Qed.

(** *** concave_hull beyond three points *)

(** X10. Whatever alphashape does, [concave_hull] returns either the
    convex hull of the points or, for at least four points, a polygon that
    alphashape returned, alone or as a member of its multi-polygon: a
    multi-polygon, another geometry or an exception of alphashape never
    reaches the caller. *)
Theorem concave_hull_is_hull_or_alpha_polygon (points : list point) (alpha : float) :
  concave_hull points alpha = convex_hull points
  \/ ((4 <= length points)%nat
      /\ exists p,
           concave_hull points alpha = GPolygon p
           /\ (alphashape points alpha = Some (GPolygon p)
               \/ exists geoms,
                    alphashape points alpha = Some (GMultiPolygon geoms)
                    /\ p ∈ geoms)).
Proof.
  unfold concave_hull.
  destruct (length points <? 4)%nat eqn:Hlen; [by left|].
  apply Nat.ltb_ge in Hlen.
  destruct (alphashape points alpha) as [[p|[|q geoms]|e]|]; try by left.
  - right. split; [done|]. exists p. split; [done|]. by left.
  - right. split; [done|]. exists (max_area_go q geoms). split; [done|].
    right. exists (q :: geoms). split; [done|]. apply max_area_go_elem_of.
Qed.

(** *** The names of the copies *)

Lemma append_inj_l (s a b : string) : (s ++ a)%string = (s ++ b)%string -> a = b.
Proof. induction s as [|c s IH]; simpl; [done|]. intros [= ?]. auto. Qed.

Lemma append_eq_self (s t : string) : (s ++ t)%string = s -> t = EmptyString.
Proof. induction s as [|c s IH]; simpl; [done|]. intros [= ?]. auto. Qed.

Lemma of_nat_inj (a b : nat) : PyStr.of_nat a = PyStr.of_nat b -> a = b.
Proof.
  unfold PyStr.of_nat. intros Hab.
  apply (f_equal NilEmpty.uint_of_string) in Hab.
  rewrite !NilEmpty.usu in Hab. injection Hab as Hab.
  apply (f_equal Nat.of_uint) in Hab.
  by rewrite !DecimalNat.Unsigned.of_to in Hab.
Qed.

Lemma unique_name_inj (name : string) (c1 c2 : nat) :
  unique_name name c1 = unique_name name c2 -> c1 = c2.
Proof.
  unfold unique_name.
  destruct c1 as [|c1], c2 as [|c2]; simpl; [done| | |].
  - intros H1. symmetry in H1. by apply append_eq_self in H1.
  - intros H1. by apply append_eq_self in H1.
  - intros H1%append_inj_l. injection H1 as H1.
    change (PyStr.of_nat (S c1) = PyStr.of_nat (S c2)) in H1.
    by apply of_nat_inj in H1.
Qed.

Lemma earlier_same_name_lt (objs : list (Z * ObjectRecord)) (i j : nat)
    (a : Z * ObjectRecord) :
  (i < j)%nat -> objs !! i = Some a ->
  (earlier_same_name objs i (obj_name a.2)
   < earlier_same_name objs j (obj_name a.2))%nat.
Proof.
  intros Hij Ha. unfold earlier_same_name.
  rewrite <- (take_drop_middle objs i a Ha) at 2.
  assert (Hlen : length (take i objs) = i).
  { rewrite length_take. apply lookup_lt_Some in Ha. lia. }
  rewrite take_app_ge by lia. rewrite Hlen.
  destruct (j - i)%nat as [|n] eqn:Hji; [lia|]. simpl.
  rewrite filter_app, filter_cons_True by done.
  rewrite length_app. simpl. lia.
Qed.

(** X11. Two objects of the mapping that carry the same name never get the
    same NAME in their commands: the later one has the larger copy index
    (see [define_commands_outcomes]), and [unique_name] keeps different
    indices of one name apart. *)
Theorem same_name_distinct_unique_names (objs : list (Z * ObjectRecord))
    (i j : nat) (a b : Z * ObjectRecord) :
  (i < j)%nat -> objs !! i = Some a -> objs !! j = Some b ->
  obj_name a.2 = obj_name b.2 ->
  unique_name (obj_name a.2) (earlier_same_name objs i (obj_name a.2))
  <> unique_name (obj_name b.2) (earlier_same_name objs j (obj_name b.2)).
Proof.
  intros Hij Ha Hb Hname Heq. rewrite <- Hname in Heq.
  apply unique_name_inj in Heq.
  pose proof (earlier_same_name_lt objs i j a Hij Ha). lia.
Qed.

End ScanProperties.

(** ** The hull of three points *)

Lemma clockwise_ring_triangle (o p q a b c : point) :
  [o; p; q] ≡ₚ [a; b; c] ->
  exists v0 v1 v2,
    clockwise_ring o p q = [v0; v1; v2; v0] /\ [v0; v1; v2] ≡ₚ [a; b; c].
Proof.
  intros Hperm. unfold clockwise_ring. destruct (cross o p q <? 0).
  - by exists o, p, q.
  - exists o, q, p. split; [done|]. rewrite <- Hperm. solve_Permutation.
Qed.

(** C8. For three points with finite coordinates that do not lie on one
    line, for every tightness [alpha], and whatever alphashape, the area and
    the simplification are, [concave_hull] returns the convex hull of the
    three points without consulting alphashape, and that hull, as the
    specification gives it for three points, is the triangle on them. *)
Theorem concave_hull_of_three_points (area : list point -> float)
    (simplify : list point -> float -> list point)
    (hull_of_others : list point -> geom (list point))
    (alphashape : list point -> float -> option (geom (list point)))
    (a b c : point) (alpha : float) :
  finite_point a = true -> finite_point b = true -> finite_point c = true ->
  collinear a b c = false ->
  let S := ring_shapely area simplify hull_of_others alphashape in
  @concave_hull S [a; b; c] alpha = @convex_hull S [a; b; c]
  /\ @is_triangle_of S a b c (@concave_hull S [a; b; c] alpha).
Proof.
  intros _ _ _ Habc S. split; [reflexivity|].
  change (@concave_hull S [a; b; c] alpha) with (triangle_hull a b c).
  unfold triangle_hull, is_triangle_of. rewrite Habc.
  destruct (lower_point a b && lower_point a c);
    [|destruct (lower_point b c)].
  - destruct (clockwise_ring_triangle a b c a b c) as (v0 & v1 & v2 & Hr & Hp);
      [done|].
    by exists (clockwise_ring a b c), v0, v1, v2.
  - destruct (clockwise_ring_triangle b a c a b c) as (v0 & v1 & v2 & Hr & Hp);
      [solve_Permutation|].
    by exists (clockwise_ring b a c), v0, v1, v2.
  - destruct (clockwise_ring_triangle c a b a b c) as (v0 & v1 & v2 & Hr & Hp);
      [solve_Permutation|].
    by exists (clockwise_ring c a b), v0, v1, v2.
Qed.

(** On one line there is no polygon, whatever the tightness. *)
Lemma concave_hull_of_collinear_points (area : list point -> float)
    (simplify : list point -> float -> list point)
    (hull_of_others : list point -> geom (list point))
    (alphashape : list point -> float -> option (geom (list point)))
    (a b c : point) (alpha : float) :
  collinear a b c = true ->
  @concave_hull (ring_shapely area simplify hull_of_others alphashape)
    [a; b; c] alpha = GOther false.
Proof.
  intros Habc.
  change (triangle_hull a b c = GOther false).
  unfold triangle_hull. by rewrite Habc.
Qed.

(** ** The program on the sample streams *)

Import Fixture.

Example two_cubes_output :
  main Streams.two_cubes
  = take 1 Streams.two_cubes
    ++ [marker; Streams.cube_1; Streams.cube_2 "Cube_copy1"; newline]
    ++ drop 1 Streams.two_cubes.
Proof. vm_compute. reflexivity. Qed.

(** The last field of an axis that parses wins; a malformed one after it
    changes nothing. *)
Example extract_xy_sample :
  extract_xy "G1 X1 X2.5 Xbad Y2 E0.3 Y-3" = (Some 2.5%float, Some (-3)%float)
  /\ extract_xy "G1 Xbad E1" = (None, None).
Proof. vm_compute. split; reflexivity. Qed.

(** After an object-start marker without a usable id, a move still goes to
    the object that was active, and the support flag is cleared. *)
Example move_after_marker_without_id :
  objects (scan (Streams.lines_of
                   [ "; printing object Cube id:1"; ";TYPE:Support";
                     "; printing object Other id:zz"; "G1 X1 Y2" ]))
  = [(1, {| obj_name := "Cube"; obj_points := [(1, 2)%float] |})].
Proof. vm_compute. reflexivity. Qed.

(** C1, as stated, fails: the first Cube is skipped (two points), and the
    second, the first record emitted, is named Cube_copy1, where the count
    of records emitted before it gives Cube. *)
Lemma skipped_object_advances_copy_index :
  define_commands (objects (scan Streams.skipped_cube))
  = [Streams.cube_2 "Cube_copy1"]
  /\ spec_define_commands [] (objects (scan Streams.skipped_cube))
     = [Streams.cube_2 "Cube"]
  /\ define_commands (objects (scan Streams.skipped_cube))
     <> spec_define_commands [] (objects (scan Streams.skipped_cube)).
Proof.
  assert (H1 : define_commands (objects (scan Streams.skipped_cube))
               = [Streams.cube_2 "Cube_copy1"]) by (vm_compute; reflexivity).
  assert (H2 : spec_define_commands [] (objects (scan Streams.skipped_cube))
               = [Streams.cube_2 "Cube"]) by (vm_compute; reflexivity).
  split_and!; [done|done|].
  rewrite H1, H2. vm_compute. discriminate.
Qed.

(** C2, on the stream with lower-case markers: the support marker is
    recognised, the marker that follows it is not, so the support flag stays
    set, the two moves after it are dropped and the object, left with one
    point, gets no command. With the markers in upper case the same moves
    are collected and the object is emitted. *)
Theorem lower_case_marker_leaves_support_set :
  in_support (scan (take 5 Streams.lower_case_markers)) = true
  /\ (objects (scan Streams.lower_case_markers))
     = [(1, {| obj_name := "Cube"; obj_points := [(0, 0)%float] |})]
  /\ main Streams.lower_case_markers = Streams.lower_case_markers
  /\ in_support (scan (take 5 Streams.upper_case_markers)) = false
  /\ (objects (scan Streams.upper_case_markers))
     = [(1, {| obj_name := "Cube";
               obj_points := [(0, 0)%float; (4, 0)%float; (0, 4)%float] |})]
  /\ define_commands (objects (scan Streams.upper_case_markers)) = [Streams.cube_1].
Proof. vm_compute. repeat split; reflexivity. Qed.

(** ** The theorems at the sample streams *)

Lemma start_marker_without_id_witness :
  let st := scan (take 5 Streams.two_cubes) in
  let line := "; printing object Part id:x7" in
  PyStr.startswith (PyStr.strip line) "; printing object" = true
  /\ (PyStr.find (PyStr.strip line) "id:" < 0 \/ parse_obj_id (PyStr.strip line) = None)
  /\ current_object_id st = Some 1
  /\ current_object_id (scan_line st line) = current_object_id st
  /\ objects (scan_line st line) = objects st
  /\ in_support (scan_line st line) = false.
Proof.
  intros st line.
  assert (H1 : PyStr.startswith (PyStr.strip line) "; printing object" = true)
    by reflexivity.
  assert (H2 : PyStr.find (PyStr.strip line) "id:" < 0
               \/ parse_obj_id (PyStr.strip line) = None)
    by (right; reflexivity).
  split; [exact H1|]. split; [exact H2|]. split; [reflexivity|].
  exact (start_marker_without_id st line H1 H2).
Defined.

Lemma concave_hull_of_three_points_witness :
  let a := (0, 0)%float in
  let b := (4, 0)%float in
  let c := (0, 4)%float in
  let S := ring_shapely (fun _ => 0%float) (fun p _ => p) fx_hull_of_others
             (fun points _ => Some (GMultiPolygon [points; points])) in
  finite_point a = true /\ finite_point b = true /\ finite_point c = true
  /\ collinear a b c = false
  /\ @concave_hull S [a; b; c] 2 = GPolygon [a; c; b; a]
  /\ @concave_hull S [a; b; c] 2 = @convex_hull S [a; b; c]
  /\ @is_triangle_of S a b c (@concave_hull S [a; b; c] 2).
Proof.
  intros a b c S.
  assert (Ha : finite_point a = true) by (vm_compute; reflexivity).
  assert (Hb : finite_point b = true) by (vm_compute; reflexivity).
  assert (Hc : finite_point c = true) by (vm_compute; reflexivity).
  assert (H : collinear a b c = false) by (vm_compute; reflexivity).
  split; [exact Ha|]. split; [exact Hb|]. split; [exact Hc|]. split; [exact H|].
  split; [vm_compute; reflexivity|].
  exact (concave_hull_of_three_points (fun _ => 0%float) (fun p _ => p)
           fx_hull_of_others
           (fun points _ => Some (GMultiPolygon [points; points]))
           a b c 2%float Ha Hb Hc H).
Defined.

Lemma emitted_center_is_ring_mean_witness :
  finalize "Cube" 0 Streams.triangle = Some Streams.cube_1
  /\ exists hull,
       simplify_polygon (concave_hull Streams.triangle 0.5) 40 = GPolygon hull
       /\ Streams.cube_1 = ring_command "Cube" 0 (exterior_coords hull)
       /\ forall v mid,
            exterior_coords hull = v :: mid ++ [v] ->
            mean (exterior_coords hull).*1
            = (py_sum (v.1 :: mid.*1 ++ [v.1])
               / float_of_nat (length mid + 2))%float
            /\ mean (exterior_coords hull).*2
               = (py_sum (v.2 :: mid.*2 ++ [v.2])
                  / float_of_nat (length mid + 2))%float.
Proof.
  assert (H : finalize "Cube" 0 Streams.triangle = Some Streams.cube_1)
    by (vm_compute; reflexivity).
  split; [exact H|].
  exact (emitted_center_is_ring_mean "Cube" 0 Streams.triangle Streams.cube_1 H).
Defined.

(** The ring of the triangle closes on its first vertex, which the center
    counts twice: (0 + 4 + 0 + 0) / 4 = 1, where the three vertices have
    mean 4/3. *)
Example triangle_center :
  mean (Streams.triangle ++ [(0, 0)%float]).*1 = 1%float
  /\ mean (Streams.triangle ++ [(0, 0)%float]).*2 = 1%float
  /\ (mean Streams.triangle.*1 =? 1)%float = false.
Proof. vm_compute. repeat split; reflexivity. Qed.

(** The two summations of CPython agree on the rings of the examples and
    part on others: for the abscissas 50, 30.07, 61.54, 50 the plain sum
    gives the center 47.902 and the compensated sum 47.903. *)
Example sum_of_either_version :
  compensated_sum [0; 0; 4; 0]%float = float_sum [0; 0; 4; 0]%float
  /\ compensated_sum [10; 10; 14; 10]%float = float_sum [10; 10; 14; 10]%float
  /\ fx_str (fx_round (float_sum [50; 30.07; 61.54; 50] / 4)%float 3) = "47.902"
  /\ fx_str (fx_round (compensated_sum [50; 30.07; 61.54; 50] / 4)%float 3)
     = "47.903".
Proof. vm_compute. repeat split; reflexivity. Qed.

Lemma fixture_alphashape_nonempty : alphashape_nonempty.
Proof. intros points alpha g Hg. discriminate Hg. Qed.

Lemma fixture_simplify_nonempty : simplify_nonempty.
Proof. intros p tolerance Hp. exact Hp. Qed.

Lemma skipped_iff_few_points_or_no_hull_witness :
  alphashape_nonempty /\ simplify_nonempty
  /\ let objs := objects (scan Streams.skipped_cube) in
     NoDup objs.*1
     /\ (length (define_commands objs) <= length objs)%nat
     /\ define_commands objs = omap (object_outcome objs) (seq 0 (length objs))
     /\ forall i item,
          objs !! i = Some item ->
          object_outcome objs i = None
          <-> (length (obj_points item.2) < 3)%nat
              \/ (concave_ok (obj_points item.2) = false
                  /\ convex_ok (obj_points item.2) = false).
Proof.
  split; [exact fixture_alphashape_nonempty|].
  split; [exact fixture_simplify_nonempty|].
  exact (skipped_iff_few_points_or_no_hull Streams.skipped_cube
           fixture_alphashape_nonempty fixture_simplify_nonempty).
Defined.

Lemma copy_index_counts_earlier_objects_witness :
  let objs := objects (scan Streams.two_cubes) in
  Forall (fun item => is_Some (finalize (obj_name item.2) 0 (obj_points item.2))) objs
  /\ define_commands objs = spec_define_commands [] objs
  /\ define_commands objs = [Streams.cube_1; Streams.cube_2 "Cube_copy1"].
Proof.
  intros objs.
  assert (H : Forall (fun item => is_Some (finalize (obj_name item.2) 0
                                             (obj_points item.2))) objs).
  { assert (E : objs = [ (1, {| obj_name := "Cube"; obj_points := Streams.triangle |});
                         (2, {| obj_name := "Cube";
                                obj_points := [(10, 0)%float; (14, 0)%float;
                                               (10, 4)%float] |}) ])
      by (vm_compute; reflexivity).
    rewrite E. constructor; [|constructor; [|constructor]].
    - exists Streams.cube_1. vm_compute. reflexivity.
    - exists (Streams.cube_2 "Cube"). vm_compute. reflexivity. }
  split; [exact H|]. split.
  - exact (proj2 (copy_index_counts_earlier_objects objs) H).
  - vm_compute. reflexivity.
Defined.

(** ** The properties of the scan at the sample streams *)

Lemma start_marker_activates_id_witness :
  let st := scan (take 8 Streams.two_cubes) in
  let line := "  ; printing object Bracket v2 id:7 copy 0" in
  let ls := PyStr.strip line in
  PyStr.startswith ls "; printing object" = true
  /\ parse_obj_id ls = Some 7
  /\ PyStr.strip (PyStr.slice ls 18 (PyStr.find ls "id:")) = "Bracket v2"
  /\ current_object_id (scan_line st line) = Some 7
  /\ in_support (scan_line st line) = false
  /\ objects (scan_line st line)
     = if has_id (objects st) 7 then objects st
       else objects st
            ++ [(7, {| obj_name := PyStr.strip (PyStr.slice ls 18 (PyStr.find ls "id:"));
                       obj_points := [] |})].
Proof.
  intros st line ls.
  assert (H1 : PyStr.startswith ls "; printing object" = true) by reflexivity.
  assert (H2 : parse_obj_id ls = Some 7) by reflexivity.
  split; [exact H1|]. split; [exact H2|]. split; [reflexivity|].
  exact (start_marker_activates_id st line 7 H1 H2).
Defined.

Lemma stop_marker_deactivates_witness :
  let st := scan (take 5 Streams.two_cubes) in
  let line := "; stop printing object Cube id:1" in
  PyStr.startswith (PyStr.strip line) "; stop printing object" = true
  /\ current_object_id st = Some 1
  /\ marker_of line = None
  /\ current_object_id (scan_line st line) = None
  /\ objects (scan_line st line) = objects st
  /\ in_support (scan_line st line) = in_support st.
Proof.
  intros st line.
  assert (H1 : PyStr.startswith (PyStr.strip line) "; stop printing object" = true)
    by reflexivity.
  split; [exact H1|]. split; [reflexivity|].
  exact (stop_marker_deactivates st line H1).
Defined.

Lemma idle_or_support_collects_nothing_witness :
  let st := scan (take 3 Streams.upper_case_markers) in
  let line := "G1 X9 Y9" in
  (current_object_id (scan_line st line) = None
   \/ in_support (scan_line st line) = true)
  /\ current_object_id (scan_line st line) = Some 1
  /\ objects (scan_line st line) = objects st.
Proof.
  intros st line.
  assert (H1 : current_object_id (scan_line st line) = None
               \/ in_support (scan_line st line) = true)
    by (right; vm_compute; reflexivity).
  split; [exact H1|]. split; [vm_compute; reflexivity|].
  exact (idle_or_support_collects_nothing st line H1).
Defined.

Lemma inactive_objects_untouched_witness :
  let st := scan (take 9 Streams.two_cubes) in
  let line := "G1 X10 Y0" in
  current_object_id (scan_line st line) <> Some 1
  /\ get_object (objects (scan_line st line)) 2
     <> get_object (objects st) 2
  /\ get_object (objects (scan_line st line)) 1 = get_object (objects st) 1.
Proof.
  intros st line.
  assert (H1 : current_object_id (scan_line st line) <> Some 1)
    by (vm_compute; discriminate).
  split; [exact H1|]. split; [vm_compute; discriminate|].
  exact (inactive_objects_untouched st line 1 H1).
Defined.

Lemma records_persist_witness :
  let o := {| obj_name := "Cube"; obj_points := [(0, 0)%float; (4, 0)%float] |} in
  get_object (objects (scan (take 6 Streams.two_cubes))) 1 = Some o
  /\ exists o',
       get_object (objects (scan (take 6 Streams.two_cubes
                                  ++ drop 6 Streams.two_cubes))) 1 = Some o'
       /\ obj_name o' = obj_name o
       /\ obj_points o ⊆ obj_points o'.
Proof.
  intros o.
  assert (H1 : get_object (objects (scan (take 6 Streams.two_cubes))) 1 = Some o)
    by (vm_compute; reflexivity).
  split; [exact H1|].
  exact (records_persist (take 6 Streams.two_cubes) (drop 6 Streams.two_cubes) 1 o H1).
Defined.

Lemma stream_without_objects_unchanged_witness :
  let lines := Streams.lines_of
                 [ "; no object in here"; "G28";
                   "; printing object without an id"; "G1 X1 Y1";
                   ";TYPE:Support"; "G1 X2 Y2" ] in
  Forall (fun line => marker_of line = None) lines
  /\ objects (scan lines) = [] /\ main lines = lines.
Proof.
  intros lines.
  assert (H1 : Forall (fun line => marker_of line = None) lines)
    by (repeat constructor).
  split; [exact H1|].
  exact (stream_without_objects_unchanged lines H1).
Defined.

Lemma same_name_distinct_unique_names_witness :
  let objs := objects (scan Streams.two_cubes) in
  let a := (1, {| obj_name := "Cube"; obj_points := Streams.triangle |}) in
  let b := (2, {| obj_name := "Cube";
                  obj_points := [(10, 0)%float; (14, 0)%float; (10, 4)%float] |}) in
  (0 < 1)%nat /\ objs !! 0%nat = Some a /\ objs !! 1%nat = Some b
  /\ obj_name a.2 = obj_name b.2
  /\ unique_name (obj_name a.2) (earlier_same_name objs 0 (obj_name a.2))
     <> unique_name (obj_name b.2) (earlier_same_name objs 1 (obj_name b.2)).
Proof.
  intros objs a b.
  assert (H1 : (0 < 1)%nat) by lia.
  assert (H2 : objs !! 0%nat = Some a) by (vm_compute; reflexivity).
  assert (H3 : objs !! 1%nat = Some b) by (vm_compute; reflexivity).
  assert (H4 : obj_name a.2 = obj_name b.2) by reflexivity.
  split; [exact H1|]. split; [exact H2|]. split; [exact H3|]. split; [exact H4|].
  exact (same_name_distinct_unique_names objs 0 1 a b H1 H2 H3 H4).
Defined.

(** Names can still meet across different names: the second Cube and an
    object that is itself called Cube_copy1 are both written Cube_copy1. *)
Example unique_names_can_collide :
  unique_name "Cube" 1 = unique_name "Cube_copy1" 0.
Proof. reflexivity. Qed.

Lemma move_while_printing_is_stored_witness :
  let st := scan (take 5 Streams.two_cubes) in
  let line := "G1 X4.001 Y0 E0.4 F1800 ; outer wall" in
  let o := {| obj_name := "Cube"; obj_points := [(0, 0)%float] |} in
  let ls := PyStr.strip line in
  current_object_id st = Some 1
  /\ in_support st = false
  /\ get_object (objects st) 1 = Some o
  /\ (PyStr.startswith ls "G1" = true \/ PyStr.startswith ls "G0" = true)
  /\ PyStr.contains (PyStr.lower ls) ";type:support" = false
  /\ extract_xy ls = (Some 4.001%float, Some 0%float)
  /\ get_object (objects (scan_line st line)) 1
     = Some {| obj_name := obj_name o;
               obj_points := set_add (py_round 4.001 2, py_round 0 2)
                               (obj_points o) |}
  /\ current_object_id (scan_line st line) = Some 1
  /\ in_support (scan_line st line) = false.
Proof.
  intros st line o ls.
  assert (H1 : current_object_id st = Some 1) by (vm_compute; reflexivity).
  assert (H2 : in_support st = false) by (vm_compute; reflexivity).
  assert (H3 : get_object (objects st) 1 = Some o) by (vm_compute; reflexivity).
  assert (H4 : PyStr.startswith ls "G1" = true \/ PyStr.startswith ls "G0" = true)
    by (left; reflexivity).
  assert (H5 : PyStr.contains (PyStr.lower ls) ";type:support" = false)
    by (vm_compute; reflexivity).
  assert (H6 : extract_xy ls = (Some 4.001%float, Some 0%float))
    by (vm_compute; reflexivity).
  split; [exact H1|]. split; [exact H2|]. split; [exact H3|].
  split; [exact H4|]. split; [exact H5|]. split; [exact H6|].
  exact (move_while_printing_is_stored st line 1 o _ _ H1 H2 H3 H4 H5 H6).
Defined.
